(** * pentair-control-web: the HTTP handlers of [main.py]

    A shallow embedding of the request handlers of [main.py] (FastAPI
    routes in front of the [pypentair] pump driver) and the properties
    of its validation and mapping layer.

    The pump driver is an external collaborator: the handlers are written
    over an abstract [Driver] interface, and a register-file simulation of
    the pump ([Sim]) instantiates it for concrete runs. *)

From stdpp Require Import base strings gmap list.
From Stdlib Require Import ZArith Lia.

Local Open Scope string_scope.
Local Open Scope Z_scope.
Local Open Scope list_scope.

(** ** Values exchanged with the driver *)

(** Python values that travel between the handlers and the pump driver:
    integers, booleans and lists of integers ([hour, minute] pairs, the
    pump clock). *)
Inductive value : Type :=
| VInt (n : Z)
| VBool (b : bool)
| VList (l : list Z).

(** What a handler reads or assigns on the driver objects:
    [pump.<name>], [pump.get/set(SETTING[<name>])] and
    [pump.program(<index>).<name>]. *)
Inductive target : Type :=
| Attr (name : string)
| Setting (name : string)
| ProgAttr (index : Z) (name : string).

#[global] Instance value_eq_dec : EqDecision value.
Proof. solve_decision. Defined.

#[global] Instance target_eq_dec : EqDecision target.
Proof. solve_decision. Defined.

(** ** Exceptions *)

(** The exceptions that occur in the handlers.  [HTTPException] is
    FastAPI's; like every exception raised here it derives from Python's
    [Exception].  Its detail is either a literal or [str(e)] of a caught
    exception [e], which is kept symbolic as [Str e]. *)
Inductive exn : Type :=
| HTTPException (status_code : Z) (detail : message)
| IndexError
| TypeError
| ValidationError
| DriverError (text : string)
with message : Type :=
| Text (s : string)
| Str (e : exn).

(** ** The driver interface *)

Inductive reply (A : Type) : Type :=
| Done (a : A)
| Failed (text : string).
Arguments Done {A} a.
Arguments Failed {A} text.

(** The pump driver as the handlers use it.  A read does not change the
    device; a write returns the device after the attempt and the driver's
    error text when the attempt failed. *)
Class Driver (D : Type) : Type := {
  readStatus : D -> reply (gmap string value);
  readField : target -> D -> reply value;
  writeField : target -> value -> D -> D * option string
}.

(** ** The handler monad: device state, issued writes, exceptions *)

Inductive outcome (A : Type) : Type :=
| Ret (a : A)
| Raise (e : exn).
Arguments Ret {A} a.
Arguments Raise {A} e.

(** A request's view of the device: the device itself and the writes sent
    to it so far, oldest first. *)
Record session (D : Type) : Type := Session {
  dev : D;
  issued : list (target * value)
}.
Arguments Session {D} dev issued.
Arguments dev {D} s.
Arguments issued {D} s.

Definition M (D A : Type) : Type := session D -> outcome A * session D.

Definition ret {D A} (a : A) : M D A := fun s => (Ret a, s).

Definition raise {D A} (e : exn) : M D A := fun s => (Raise e, s).

Definition bind {D A B} (m : M D A) (k : A -> M D B) : M D B :=
  fun s =>
    match m s with
    | (Ret a, s') => k a s'
    | (Raise e, s') => (Raise e, s')
    end.

Declare Scope handler_scope.
Delimit Scope handler_scope with handler.
Notation "x <- m ;; k" := (bind m (fun x => k))
  (at level 100, m at next level, right associativity) : handler_scope.
Notation "m ;; k" := (bind m (fun _ => k))
  (at level 100, right associativity) : handler_scope.
Local Open Scope handler_scope.

(** [try: body except Exception as e: raise HTTPException(500, str(e))]:
    every exception leaving the body, an [HTTPException] included, is
    replaced by a 500 whose detail is [str(e)]. *)
Definition except_Exception {D A} (body : M D A) : M D A :=
  fun s =>
    match body s with
    | (Ret a, s') => (Ret a, s')
    | (Raise e, s') => (Raise (HTTPException 500 (Str e)), s')
    end.

(** [if o is not None: k o] *)
Definition if_not_None {D A} (o : option A) (k : A -> M D unit) : M D unit :=
  match o with
  | Some x => k x
  | None => ret tt
  end.

(** [a and b] on conditions that may raise: [b] is evaluated only when
    [a] is true. *)
Definition and_then {D} (a b : M D bool) : M D bool :=
  x <- a ;; if x then b else ret false.

(** [l[i]] for a literal index [i >= 0]. *)
Definition getitem {D} (l : list Z) (i : nat) : M D Z :=
  match l !! i with
  | Some x => ret x
  | None => raise IndexError
  end.

(** [lo <= x <= hi] *)
Definition between (lo x hi : Z) : bool := (lo <=? x) && (x <=? hi).

Section Driver_calls.
Context {D : Type} `{Driver D}.

(** [pump.<attr> = v], [pump.set(...)], [program.<attr> = v] *)
Definition pump_set (t : target) (v : value) : M D unit :=
  fun s =>
    let '(d', err) := writeField t v (dev s) in
    let s' := Session d' (issued s ++ [(t, v)]) in
    match err with
    | None => (Ret tt, s')
    | Some text => (Raise (DriverError text), s')
    end.

(** [pump.<attr>], [pump.get(...)], [program.<attr>] *)
Definition pump_get (t : target) : M D value :=
  fun s =>
    match readField t (dev s) with
    | Done v => (Ret v, s)
    | Failed text => (Raise (DriverError text), s)
    end.

(** [pump.status] *)
Definition pump_status : M D (gmap string value) :=
  fun s =>
    match readStatus (dev s) with
    | Done st => (Ret st, s)
    | Failed text => (Raise (DriverError text), s)
    end.

End Driver_calls.

(** ** Request and response models (pydantic) *)

Module PumpControl.
Record t : Type := Build {
  state : option bool;
  speed : option Z;
  ramp : option Z;
  celsius : option bool;
  fahrenheit : option bool;
  contrast : option Z;
  address : option Z;
  id : option Z;
  ampm : option bool;
  max_rpm : option Z;
  min_rpm : option Z;
  quick_rpm : option Z;
  quick_timer : option (list Z);
  prime_enable : option bool;
  prime_max_time : option Z;
  prime_sensitivity : option Z;
  prime_delay : option Z;
  antifreeze_enable : option bool;
  antifreeze_rpm : option Z;
  antifreeze_temp : option Z;
  svrs_restart_enable : option bool;
  svrs_restart_timer : option Z;
  time_out_timer : option (list Z);
  running_program : option Z;
  selected_program : option Z
}.

(** The request body [{}]: every field absent. *)
Definition empty : t :=
  Build None None None None None None None None None None None None None
        None None None None None None None None None None None None.
End PumpControl.

Module ProgramControl.
Record t : Type := Build {
  program_id : Z;
  rpm : option Z;
  mode : option string;
  schedule_start : option (list Z);
  schedule_end : option (list Z);
  egg_timer : option (list Z)
}.
End ProgramControl.

Module StatusResponse.
Record t : Type := Build {
  state : bool;
  speed : Z;
  watts : Z;
  mode : string;
  time : list Z
}.
End StatusResponse.

(** The body [{"status": "success"}] of a successful control reply. *)
Definition success : list (string * string) := [("status", "success")].

(** ** [POST /control] *)

Section Control.
Context {D : Type} `{Driver D}.
Import PumpControl.

Definition control_pump_body (control : PumpControl.t)
  : M D (list (string * string)) :=
  if_not_None control.(state) (fun state =>
    pump_set (Attr "run") (VInt (if state then 0x0A else 0x04))) ;;
  if_not_None control.(speed) (fun speed =>
    if between 450 speed 3450
    then pump_set (Attr "trpm") (VInt speed)
    else raise (HTTPException 400
                  (Text "Speed must be between 450 and 3450 RPM"))) ;;
  if_not_None control.(ramp) (fun ramp =>
    if between 100 ramp 200
    then pump_set (Attr "ramp") (VInt ramp)
    else raise (HTTPException 400
                  (Text "Ramp must be between 100 and 200"))) ;;
  if_not_None control.(celsius) (fun celsius =>
    pump_set (Attr "celsius") (VBool celsius)) ;;
  if_not_None control.(fahrenheit) (fun fahrenheit =>
    pump_set (Attr "fahrenheit") (VBool fahrenheit)) ;;
  if_not_None control.(contrast) (fun contrast =>
    if between 1 contrast 3
    then pump_set (Attr "contrast") (VInt contrast)
    else raise (HTTPException 400
                  (Text "Contrast must be between 1 and 3"))) ;;
  if_not_None control.(address) (fun address =>
    if between 96 address 97
    then pump_set (Attr "address") (VInt address)
    else raise (HTTPException 400
                  (Text "Address must be between 96 and 97"))) ;;
  if_not_None control.(id) (fun id =>
    if between 1 id 2
    then pump_set (Attr "id") (VInt id)
    else raise (HTTPException 400
                  (Text "ID must be between 1 and 2"))) ;;
  if_not_None control.(ampm) (fun ampm =>
    pump_set (Attr "ampm") (VBool ampm)) ;;
  if_not_None control.(max_rpm) (fun max_rpm =>
    if between 3445 max_rpm 3450
    then pump_set (Attr "max_rpm") (VInt max_rpm)
    else raise (HTTPException 400
                  (Text "Max RPM must be between 3445 and 3450"))) ;;
  if_not_None control.(min_rpm) (fun min_rpm =>
    if between 1100 min_rpm 1105
    then pump_set (Attr "min_rpm") (VInt min_rpm)
    else raise (HTTPException 400
                  (Text "Min RPM must be between 1100 and 1105"))) ;;
  if_not_None control.(quick_rpm) (fun quick_rpm =>
    if between 2000 quick_rpm 3000
    then pump_set (Attr "quick_rpm") (VInt quick_rpm)
    else raise (HTTPException 400
                  (Text "Quick RPM must be between 2000 and 3000"))) ;;
  if_not_None control.(quick_timer) (fun quick_timer =>
    ok <- and_then (h <- getitem quick_timer 0 ;; ret (between 0 h 9))
                   (m <- getitem quick_timer 1 ;; ret (between 0 m 59)) ;;
    if ok : bool
    then pump_set (Attr "quick_timer") (VList quick_timer)
    else raise (HTTPException 400
                  (Text "Quick timer hours 0-9, minutes 0-59"))) ;;
  if_not_None control.(prime_enable) (fun prime_enable =>
    pump_set (Attr "prime_enable") (VBool prime_enable)) ;;
  if_not_None control.(prime_max_time) (fun prime_max_time =>
    if between 1 prime_max_time 30
    then pump_set (Attr "prime_max_time") (VInt prime_max_time)
    else raise (HTTPException 400
                  (Text "Prime max time must be between 1 and 30"))) ;;
  if_not_None control.(prime_sensitivity) (fun prime_sensitivity =>
    if between 1 prime_sensitivity 100
    then pump_set (Attr "prime_sensitivity") (VInt prime_sensitivity)
    else raise (HTTPException 400
                  (Text "Prime sensitivity must be between 1 and 100"))) ;;
  if_not_None control.(prime_delay) (fun prime_delay =>
    if between 1 prime_delay 600
    then pump_set (Attr "prime_delay") (VInt prime_delay)
    else raise (HTTPException 400
                  (Text "Prime delay must be between 1 and 600"))) ;;
  if_not_None control.(antifreeze_enable) (fun antifreeze_enable =>
    pump_set (Attr "antifreeze_enable") (VBool antifreeze_enable)) ;;
  if_not_None control.(antifreeze_rpm) (fun antifreeze_rpm =>
    if between 1100 antifreeze_rpm 3000
    then pump_set (Attr "antifreeze_rpm") (VInt antifreeze_rpm)
    else raise (HTTPException 400
                  (Text "Antifreeze RPM must be between 1100 and 3000"))) ;;
  if_not_None control.(antifreeze_temp) (fun antifreeze_temp =>
    if between 40 antifreeze_temp 50
    then pump_set (Attr "antifreeze_temp") (VInt antifreeze_temp)
    else raise (HTTPException 400
                  (Text "Antifreeze temp must be between 40 and 50"))) ;;
  if_not_None control.(svrs_restart_enable) (fun svrs_restart_enable =>
    pump_set (Attr "svrs_restart_enable") (VBool svrs_restart_enable)) ;;
  if_not_None control.(svrs_restart_timer) (fun svrs_restart_timer =>
    if between 30 svrs_restart_timer 300
    then pump_set (Attr "svrs_restart_timer") (VInt svrs_restart_timer)
    else raise (HTTPException 400
                  (Text "SVRS restart timer must be between 30 and 300"))) ;;
  if_not_None control.(time_out_timer) (fun time_out_timer =>
    ok <- and_then (h <- getitem time_out_timer 0 ;; ret (between 0 h 9))
                   (m <- getitem time_out_timer 1 ;; ret (between 0 m 59)) ;;
    if ok : bool
    then pump_set (Attr "time_out_timer") (VList time_out_timer)
    else raise (HTTPException 400
                  (Text "Time out timer hours 0-9, minutes 0-59"))) ;;
  if_not_None control.(running_program) (fun running_program =>
    if between 1 running_program 4
    then pump_set (Setting "RUNNING_PROGRAM") (VInt (running_program * 8))
    else raise (HTTPException 400
                  (Text "Running program must be between 1 and 4"))) ;;
  if_not_None control.(selected_program) (fun selected_program =>
    if between 1 selected_program 8
    then pump_set (Attr "selected_program") (VInt selected_program)
    else raise (HTTPException 400
                  (Text "Selected program must be between 1 and 4"))) ;;
  ret success.

Definition control_pump (control : PumpControl.t)
  : M D (list (string * string)) :=
  except_Exception (control_pump_body control).

End Control.

(** ** Python operations on driver values *)

(** [bool(v)]: the truth value of [v] in an [if]. *)
Definition truthy (v : value) : bool :=
  match v with
  | VInt n => negb (n =? 0)
  | VBool b => b
  | VList l => negb (length l =? 0)%nat
  end.

(** [v == n] for an integer [n]; [True == 1] and [False == 0]. *)
Definition eq_int (v : value) (n : Z) : bool :=
  match v with
  | VInt m => m =? n
  | VBool b => Z.b2z b =? n
  | VList _ => false
  end.

(** [v] used as an integer (an index, an operand, an [int] field of a
    pydantic model); a list is a [bad] error. *)
Definition as_int {D} (bad : exn) (v : value) : M D Z :=
  match v with
  | VInt n => ret n
  | VBool b => ret (Z.b2z b)
  | VList _ => raise bad
  end.

(** [v[i]] for a literal index [i >= 0]. *)
Definition subscript {D} (v : value) (i : nat) : M D Z :=
  match v with
  | VList l => getitem l i
  | _ => raise TypeError
  end.

(** [l[i]] for a computed index: negative indices count from the end. *)
Definition list_index {D A} (l : list A) (i : Z) : M D A :=
  let n := Z.of_nat (length l) in
  let j := if i <? 0 then i + n else i in
  if (0 <=? j) && (j <? n)
  then match l !! Z.to_nat j with
       | Some x => ret x
       | None => raise IndexError
       end
  else raise IndexError.

(** [{v: k for k, v in table.items()}]: later items overwrite earlier
    ones with the same value. *)
Definition inverse (table : list (string * Z)) : gmap Z string :=
  foldl (fun m kv => <[kv.2 := kv.1]> m) ∅ table.

(** [inverse(table).get(v, default)]; a list is not hashable. *)
Definition inverse_get {D} (table : list (string * Z)) (v : value)
    (fallback : string) : M D string :=
  k <- as_int TypeError v ;;
  ret (default fallback (inverse table !! k)).

(** ** [POST /program] *)

Definition mode_map : gmap string Z :=
  {[ "MANUAL" := 0; "EGG_TIMER" := 1; "SCHEDULE" := 2; "DISABLED" := 3 ]}.

Section Program.
Context {D : Type} `{Driver D}.
Import ProgramControl.

Definition control_program_body (control : ProgramControl.t)
  : M D (list (string * string)) :=
  (if negb (between 1 control.(program_id) 8)
   then raise (HTTPException 400 (Text "Program ID must be between 1 and 8"))
   else ret tt) ;;
  _ <- pump_get (Attr "mode") ;;
  pump_mode <- pump_get (Attr "mode") ;;
  (if truthy pump_mode
   then raise (HTTPException 400
                 (Text "Pump is currently running, cannot modify program"))
   else ret tt) ;;
  let program := ProgAttr control.(program_id) in
  if_not_None control.(mode) (fun mode =>
    match mode_map !! mode with
    | Some code =>
        _ <- pump_get (program "mode") ;;
        pump_set (program "mode") (VInt code)
    | None =>
        raise (HTTPException 400
                 (Text "Mode must be MANUAL, EGG_TIMER, SCHEDULE, or DISABLED"))
    end) ;;
  if_not_None control.(rpm) (fun rpm =>
    if between 450 rpm 3450
    then pump_set (program "rpm") (VInt rpm)
    else raise (HTTPException 400
                  (Text "Program RPM must be between 450 and 3450"))) ;;
  if_not_None control.(schedule_start) (fun schedule_start =>
    ok <- and_then (ret (length schedule_start =? 2)%nat)
            (and_then (h <- getitem schedule_start 0 ;; ret (between 0 h 23))
                      (m <- getitem schedule_start 1 ;; ret (between 0 m 59))) ;;
    if ok : bool
    then pump_set (program "schedule_start") (VList schedule_start)
    else raise (HTTPException 400
                  (Text "Schedule start must have hours 0-23, minutes 0-59"))) ;;
  if_not_None control.(schedule_end) (fun schedule_end =>
    ok <- and_then (ret (length schedule_end =? 2)%nat)
            (and_then (h <- getitem schedule_end 0 ;; ret (between 0 h 23))
                      (m <- getitem schedule_end 1 ;; ret (between 0 m 59))) ;;
    if ok : bool
    then pump_set (program "schedule_end") (VList schedule_end)
    else raise (HTTPException 400
                  (Text "Schedule end must have hours 0-23, minutes 0-59"))) ;;
  if_not_None control.(egg_timer) (fun egg_timer =>
    ok <- and_then (ret (length egg_timer =? 2)%nat)
            (and_then (h <- getitem egg_timer 0 ;; ret (between 0 h 23))
                      (m <- getitem egg_timer 1 ;; ret (between 0 m 59))) ;;
    if ok : bool
    then pump_set (program "egg_timer") (VList egg_timer)
    else raise (HTTPException 400
                  (Text "Egg timer must have hours 0-23, minutes 0-59"))) ;;
  ret success.

Definition control_program (control : ProgramControl.t)
  : M D (list (string * string)) :=
  except_Exception (control_program_body control).

End Program.

(** ** [GET /status] and [GET /config] *)

(** A JSON reply assembled from driver values. *)
#[local] Unset Elimination Schemes.
Inductive json : Type :=
| JVal (v : value)
| JNum (n : Z)
| JStr (s : string)
| JArr (items : list json)
| JObj (fields : list (string * json)).
#[local] Set Elimination Schemes.

(** [for x in xs: out.append(f(x))] *)
Fixpoint for_each {D A B} (f : A -> M D B) (xs : list A) : M D (list B) :=
  match xs with
  | [] => ret []
  | x :: rest =>
      y <- f x ;;
      ys <- for_each f rest ;;
      ret (y :: ys)
  end.

(** [{name: getattr(pump, name) for name in names}], read in order. *)
Fixpoint read_attrs {D} `{Driver D} (names : list string)
  : M D (list (string * json)) :=
  match names with
  | [] => ret []
  | name :: rest =>
      v <- pump_get (Attr name) ;;
      vs <- read_attrs rest ;;
      ret ((name, JVal v) :: vs)
  end.

Section Reads.
Context {D : Type} `{Driver D}.

(** The driver's tables [PUMP_MODES] and [WEEKDAYS] (label to device
    code, in the order of their items). *)
Variable PUMP_MODES : list (string * Z).
Variable WEEKDAYS : list (string * Z).

Definition get_status_body : M D StatusResponse.t :=
  status <- pump_status ;;
  let state := eq_int (default (VInt 0) (status !! "run")) 0x0A in
  let speed := default (VInt 0) (status !! "rpm") in
  let watts := default (VInt 0) (status !! "watts") in
  mode <- inverse_get PUMP_MODES (default (VInt 0) (status !! "mode"))
            "UNKNOWN" ;;
  hours <- subscript (default (VList [0; 0]) (status !! "time")) 0 ;;
  minutes <- subscript (default (VList [0; 0]) (status !! "time")) 1 ;;
  speed <- as_int ValidationError speed ;;
  watts <- as_int ValidationError watts ;;
  ret (StatusResponse.Build state speed watts mode [hours; minutes]).

Definition get_status : M D StatusResponse.t :=
  except_Exception get_status_body.

(** One turn of the loop over programs 1 to 4. *)
Definition program_summary (i : Z) : M D json :=
  rpm <- pump_get (ProgAttr i "rpm") ;;
  mode <- pump_get (ProgAttr i "mode") ;;
  index <- as_int TypeError mode ;;
  label <- list_index ["MANUAL"; "EGG_TIMER"; "SCHEDULE"] index ;;
  schedule_start <- pump_get (ProgAttr i "schedule_start") ;;
  schedule_end <- pump_get (ProgAttr i "schedule_end") ;;
  egg_timer <- pump_get (ProgAttr i "egg_timer") ;;
  ret (JObj [("program_id", JNum i);
             ("rpm", JVal rpm);
             ("mode", JStr label);
             ("schedule_start", JVal schedule_start);
             ("schedule_end", JVal schedule_end);
             ("egg_timer", JVal egg_timer)]).

(** The settings [get_config] copies into its reply, in order. *)
Definition config_attrs : list string :=
  ["ramp"; "celsius"; "fahrenheit"; "contrast"; "address"; "id"; "ampm";
   "max_rpm"; "min_rpm"; "quick_rpm"; "quick_timer"; "prime_enable";
   "prime_max_time"; "prime_sensitivity"; "prime_delay";
   "antifreeze_enable"; "antifreeze_rpm"; "antifreeze_temp";
   "svrs_restart_enable"; "svrs_restart_timer"; "time_out_timer"].

Definition get_config_body : M D (list (string * json)) :=
  programs <- for_each program_summary [1; 2; 3; 4] ;;
  dt <- pump_get (Attr "dt") ;;
  _ <- pump_get (Attr "run") ;;
  settings <- read_attrs config_attrs ;;
  stored <- pump_get (Setting "RUNNING_PROGRAM") ;;
  stored <- as_int TypeError stored ;;
  let running_program := stored / 8 in
  hour <- subscript dt 0 ;;
  minute <- subscript dt 1 ;;
  weekday <- subscript dt 2 ;;
  let dow := default "SUNDAY" (inverse WEEKDAYS !! weekday) in
  dom <- subscript dt 3 ;;
  month <- subscript dt 4 ;;
  year <- subscript dt 5 ;;
  dst <- subscript dt 6 ;;
  ret (settings ++
       [("running_program", JNum running_program);
        ("datetime", JObj [("hour", JNum hour);
                           ("minute", JNum minute);
                           ("dow", JStr dow);
                           ("dom", JNum dom);
                           ("month", JNum month);
                           ("year", JNum year);
                           ("dst", JNum dst)]);
        ("programs", JArr programs)]).

Definition get_config : M D (list (string * json)) :=
  except_Exception get_config_body.

End Reads.

(** [response[key]] on a reply object. *)
Fixpoint field (key : string) (fields : list (string * json)) : option json :=
  match fields with
  | [] => None
  | (k, v) :: rest => if decide (k = key) then Some v else field key rest
  end.

(** ** A register-file pump *)

(** A simulated pump: a register per driver target, the status
    registers, and whether the serial link answers. *)
Module Sim.
Record t : Type := Build {
  regs : target -> option value;
  status : gmap string value;
  online : bool
}.

Definition store (x : target) (v : value) (d : t) : t :=
  Build (fun y => if decide (y = x) then Some v else regs d y)
        (status d) (online d).

#[global] Instance driver : Driver t := {
  readStatus d :=
    if online d then Done (status d) else Failed "no response from pump";
  readField x d :=
    if online d
    then match regs d x with
         | Some v => Done v
         | None => Failed "no response from pump"
         end
    else Failed "no response from pump";
  writeField x v d :=
    if online d then (store x v d, None)
    else (d, Some "no response from pump")
}.
End Sim.

(** The HTTP status of a handler's outcome. *)
Definition status_code_of {A} (r : outcome A) : Z :=
  match r with
  | Ret _ => 200
  | Raise (HTTPException code _) => code
  | Raise _ => 500
  end.

(** A session that has issued no write yet. *)
Definition start {D} (d : D) : session D := Session d [].

(** ** The per-field contract of [POST /control]

    The table of section 4.1 read as a function of the request: one entry
    per field, in a fixed order, saying what becomes of the field. *)

Inductive check : Type :=
| Absent
| Accept (v : value)
| Reject (detail : string)
| Crash (e : exn).

(** A boolean field: no range, passed through. *)
Definition flag (o : option bool) : check :=
  match o with
  | None => Absent
  | Some b => Accept (VBool b)
  end.

(** [state]: written as the run code [0x0A] or the stop code [0x04]. *)
Definition run_code (o : option bool) : check :=
  match o with
  | None => Absent
  | Some b => Accept (VInt (if b then 0x0A else 0x04))
  end.

(** A numeric field with the inclusive range [lo..hi]. *)
Definition ranged (lo hi : Z) (detail : string) (o : option Z) : check :=
  match o with
  | None => Absent
  | Some x => if between lo x hi then Accept (VInt x) else Reject detail
  end.

(** [running_program]: range 1 to 4, stored as index times 8. *)
Definition scaled (detail : string) (o : option Z) : check :=
  match o with
  | None => Absent
  | Some x => if between 1 x 4 then Accept (VInt (x * 8)) else Reject detail
  end.

(** An [hour, minute] field of [/control]: hour 0 to 9, minute 0 to 59,
    the two elements fetched without a length check. *)
Definition timer (detail : string) (o : option (list Z)) : check :=
  match o with
  | None => Absent
  | Some l =>
      match l !! 0%nat with
      | None => Crash IndexError
      | Some h =>
          if between 0 h 9
          then match l !! 1%nat with
               | None => Crash IndexError
               | Some m =>
                   if between 0 m 59 then Accept (VList l) else Reject detail
               end
          else Reject detail
      end
  end.

Definition plan (c : PumpControl.t) : list (target * check) :=
  [ (Attr "run", run_code (PumpControl.state c));
    (Attr "trpm",
      ranged 450 3450 "Speed must be between 450 and 3450 RPM"
        (PumpControl.speed c));
    (Attr "ramp",
      ranged 100 200 "Ramp must be between 100 and 200" (PumpControl.ramp c));
    (Attr "celsius", flag (PumpControl.celsius c));
    (Attr "fahrenheit", flag (PumpControl.fahrenheit c));
    (Attr "contrast",
      ranged 1 3 "Contrast must be between 1 and 3" (PumpControl.contrast c));
    (Attr "address",
      ranged 96 97 "Address must be between 96 and 97"
        (PumpControl.address c));
    (Attr "id", ranged 1 2 "ID must be between 1 and 2" (PumpControl.id c));
    (Attr "ampm", flag (PumpControl.ampm c));
    (Attr "max_rpm",
      ranged 3445 3450 "Max RPM must be between 3445 and 3450"
        (PumpControl.max_rpm c));
    (Attr "min_rpm",
      ranged 1100 1105 "Min RPM must be between 1100 and 1105"
        (PumpControl.min_rpm c));
    (Attr "quick_rpm",
      ranged 2000 3000 "Quick RPM must be between 2000 and 3000"
        (PumpControl.quick_rpm c));
    (Attr "quick_timer",
      timer "Quick timer hours 0-9, minutes 0-59" (PumpControl.quick_timer c));
    (Attr "prime_enable", flag (PumpControl.prime_enable c));
    (Attr "prime_max_time",
      ranged 1 30 "Prime max time must be between 1 and 30"
        (PumpControl.prime_max_time c));
    (Attr "prime_sensitivity",
      ranged 1 100 "Prime sensitivity must be between 1 and 100"
        (PumpControl.prime_sensitivity c));
    (Attr "prime_delay",
      ranged 1 600 "Prime delay must be between 1 and 600"
        (PumpControl.prime_delay c));
    (Attr "antifreeze_enable", flag (PumpControl.antifreeze_enable c));
    (Attr "antifreeze_rpm",
      ranged 1100 3000 "Antifreeze RPM must be between 1100 and 3000"
        (PumpControl.antifreeze_rpm c));
    (Attr "antifreeze_temp",
      ranged 40 50 "Antifreeze temp must be between 40 and 50"
        (PumpControl.antifreeze_temp c));
    (Attr "svrs_restart_enable", flag (PumpControl.svrs_restart_enable c));
    (Attr "svrs_restart_timer",
      ranged 30 300 "SVRS restart timer must be between 30 and 300"
        (PumpControl.svrs_restart_timer c));
    (Attr "time_out_timer",
      timer "Time out timer hours 0-9, minutes 0-59"
        (PumpControl.time_out_timer c));
    (Setting "RUNNING_PROGRAM",
      scaled "Running program must be between 1 and 4"
        (PumpControl.running_program c));
    (Attr "selected_program",
      ranged 1 8 "Selected program must be between 1 and 4"
        (PumpControl.selected_program c)) ].

(** The order in which [/control] treats its fields, as driver targets. *)
Definition field_order : list target :=
  [ Attr "run"; Attr "trpm"; Attr "ramp"; Attr "celsius"; Attr "fahrenheit";
    Attr "contrast"; Attr "address"; Attr "id"; Attr "ampm"; Attr "max_rpm";
    Attr "min_rpm"; Attr "quick_rpm"; Attr "quick_timer";
    Attr "prime_enable"; Attr "prime_max_time"; Attr "prime_sensitivity";
    Attr "prime_delay"; Attr "antifreeze_enable"; Attr "antifreeze_rpm";
    Attr "antifreeze_temp"; Attr "svrs_restart_enable";
    Attr "svrs_restart_timer"; Attr "time_out_timer";
    Setting "RUNNING_PROGRAM"; Attr "selected_program" ].

(** A field that does not stop the request. *)
Definition passes (e : target * check) : Prop :=
  match e.2 with
  | Absent | Accept _ => True
  | Reject _ | Crash _ => False
  end.

(** The writes a run of entries asks for, in order. *)
Fixpoint writes_of (p : list (target * check)) : list (target * value) :=
  match p with
  | [] => []
  | (t, Accept v) :: rest => (t, v) :: writes_of rest
  | _ :: rest => writes_of rest
  end.

Section Plans.
Context {D : Type} `{Driver D}.

(** What one entry does. *)
Definition interp (e : target * check) : M D unit :=
  match e.2 with
  | Absent => ret tt
  | Accept v => pump_set e.1 v
  | Reject detail => raise (HTTPException 400 (Text detail))
  | Crash x => raise x
  end.

(** The entries in order, then [k]. *)
Fixpoint run_plan {A} (p : list (target * check)) (k : M D A) : M D A :=
  match p with
  | [] => k
  | e :: rest => interp e ;; run_plan rest k
  end.

(** The device after the writes [ws], whatever the driver answered. *)
Fixpoint send (ws : list (target * value)) (d : D) : D :=
  match ws with
  | [] => d
  | (t, v) :: rest => send rest (writeField t v d).1
  end.

(** No write of [ws] meets a communication failure, starting from [d]. *)
Fixpoint delivered (ws : list (target * value)) (d : D) : Prop :=
  match ws with
  | [] => True
  | (t, v) :: rest =>
      (writeField t v d).2 = None /\ delivered rest (writeField t v d).1
  end.

End Plans.

(** The exception with which an entry stops the request, if it does. *)
Definition raised (c : check) : option exn :=
  match c with
  | Absent | Accept _ => None
  | Reject detail => Some (HTTPException 400 (Text detail))
  | Crash e => Some e
  end.

(** ** Requests with a single field *)

(** The numeric fields of [PumpControl], their ranges as the table of
    section 4.1 gives them, and the request that carries one of them. *)
Module Field.
Inductive t : Type :=
| speed
| ramp
| contrast
| address
| id
| max_rpm
| min_rpm
| quick_rpm
| prime_max_time
| prime_sensitivity
| prime_delay
| antifreeze_rpm
| antifreeze_temp
| svrs_restart_timer
| running_program
| selected_program.

Definition range (f : t) : Z * Z :=
  match f with
  | speed => (450, 3450)
  | ramp => (100, 200)
  | contrast => (1, 3)
  | address => (96, 97)
  | id => (1, 2)
  | max_rpm => (3445, 3450)
  | min_rpm => (1100, 1105)
  | quick_rpm => (2000, 3000)
  | prime_max_time => (1, 30)
  | prime_sensitivity => (1, 100)
  | prime_delay => (1, 600)
  | antifreeze_rpm => (1100, 3000)
  | antifreeze_temp => (40, 50)
  | svrs_restart_timer => (30, 300)
  | running_program => (1, 4)
  | selected_program => (1, 8)
  end.

(** The request body [{<f>: x}]. *)
Definition request (f : t) (x : Z) : PumpControl.t :=
  match f with
  | speed =>
      PumpControl.Build None (Some x) None None None None None None None
        None None None None None None None None None None None None None
        None None None
  | ramp =>
      PumpControl.Build None None (Some x) None None None None None None
        None None None None None None None None None None None None None
        None None None
  | contrast =>
      PumpControl.Build None None None None None (Some x) None None None
        None None None None None None None None None None None None None
        None None None
  | address =>
      PumpControl.Build None None None None None None (Some x) None None
        None None None None None None None None None None None None None
        None None None
  | id =>
      PumpControl.Build None None None None None None None (Some x) None
        None None None None None None None None None None None None None
        None None None
  | max_rpm =>
      PumpControl.Build None None None None None None None None None
        (Some x) None None None None None None None None None None None None
        None None None
  | min_rpm =>
      PumpControl.Build None None None None None None None None None None
        (Some x) None None None None None None None None None None None None
        None None
  | quick_rpm =>
      PumpControl.Build None None None None None None None None None None
        None (Some x) None None None None None None None None None None None
        None None
  | prime_max_time =>
      PumpControl.Build None None None None None None None None None None
        None None None None (Some x) None None None None None None None None
        None None
  | prime_sensitivity =>
      PumpControl.Build None None None None None None None None None None
        None None None None None (Some x) None None None None None None None
        None None
  | prime_delay =>
      PumpControl.Build None None None None None None None None None None
        None None None None None None (Some x) None None None None None None
        None None
  | antifreeze_rpm =>
      PumpControl.Build None None None None None None None None None None
        None None None None None None None None (Some x) None None None None
        None None
  | antifreeze_temp =>
      PumpControl.Build None None None None None None None None None None
        None None None None None None None None None (Some x) None None None
        None None
  | svrs_restart_timer =>
      PumpControl.Build None None None None None None None None None None
        None None None None None None None None None None None (Some x) None
        None None
  | running_program =>
      PumpControl.Build None None None None None None None None None None
        None None None None None None None None None None None None None
        (Some x) None
  | selected_program =>
      PumpControl.Build None None None None None None None None None None
        None None None None None None None None None None None None None
        None (Some x)
  end.

(** The device write that sets [f] to [x]. *)
Definition write (f : t) (x : Z) : target * value :=
  match f with
  | speed => (Attr "trpm", VInt x)
  | ramp => (Attr "ramp", VInt x)
  | contrast => (Attr "contrast", VInt x)
  | address => (Attr "address", VInt x)
  | id => (Attr "id", VInt x)
  | max_rpm => (Attr "max_rpm", VInt x)
  | min_rpm => (Attr "min_rpm", VInt x)
  | quick_rpm => (Attr "quick_rpm", VInt x)
  | prime_max_time => (Attr "prime_max_time", VInt x)
  | prime_sensitivity => (Attr "prime_sensitivity", VInt x)
  | prime_delay => (Attr "prime_delay", VInt x)
  | antifreeze_rpm => (Attr "antifreeze_rpm", VInt x)
  | antifreeze_temp => (Attr "antifreeze_temp", VInt x)
  | svrs_restart_timer => (Attr "svrs_restart_timer", VInt x)
  | running_program => (Setting "RUNNING_PROGRAM", VInt (x * 8))
  | selected_program => (Attr "selected_program", VInt x)
  end.
End Field.

(** The request body [{"quick_timer": l}]. *)
Definition only_quick_timer (l : list Z) : PumpControl.t :=
  PumpControl.Build None None None None None None None None None None
    None None (Some l) None None None None None None None None None None
    None None.

(** The request body [{"time_out_timer": l}]. *)
Definition only_time_out_timer (l : list Z) : PumpControl.t :=
  PumpControl.Build None None None None None None None None None None
    None None None None None None None None None None None None (Some l)
    None None.

(** A pump that answers, stopped, with every register readable. *)
Definition idle_pump : Sim.t :=
  Sim.Build
    (fun x =>
       if decide (x = Attr "dt") then Some (VList [12; 30; 3; 4; 11; 26; 0])
       else Some (VInt 0))
    {[ "run" := VInt 0x04; "rpm" := VInt 0; "watts" := VInt 0;
       "mode" := VInt 0; "time" := VList [12; 30] ]}
    true.

(** The same pump while it runs. *)
Definition running_pump : Sim.t :=
  Sim.Build
    (Sim.regs (Sim.store (Attr "mode") (VInt 1) idle_pump))
    {[ "run" := VInt 0x0A; "rpm" := VInt 2400; "watts" := VInt 800;
       "mode" := VInt 1; "time" := VList [12; 30] ]}
    true.

(** A pump whose serial link is down. *)
Definition silent_pump : Sim.t :=
  Sim.Build (Sim.regs idle_pump) (Sim.status idle_pump) false.

(** The request body [{"speed": 2000, "ramp": 50, "contrast": 2}]: a valid
    field, then one out of range, then another valid one. *)
Definition speed_then_bad_ramp : PumpControl.t :=
  PumpControl.Build None (Some 2000) (Some 50) None None (Some 2) None None
    None None None None None None None None None None None None None None
    None None None.

(** ** The per-field contract of [POST /program] *)

(** An [hour, minute] field of [/program]: exactly two elements, hour 0
    to 23, minute 0 to 59; the length is checked before the elements are
    fetched. *)
Definition clock (detail : string) (o : option (list Z)) : check :=
  match o with
  | None => Absent
  | Some l =>
      if (length l =? 2)%nat
      then match l !! 0%nat with
           | None => Crash IndexError
           | Some h =>
               if between 0 h 23
               then match l !! 1%nat with
                    | None => Crash IndexError
                    | Some m =>
                        if between 0 m 59 then Accept (VList l)
                        else Reject detail
                    end
               else Reject detail
           end
      else Reject detail
  end.

(** The fields of a program slot treated after [mode], in order. *)
Definition program_plan (c : ProgramControl.t) : list (target * check) :=
  let program := ProgAttr (ProgramControl.program_id c) in
  [ (program "rpm",
      ranged 450 3450 "Program RPM must be between 450 and 3450"
        (ProgramControl.rpm c));
    (program "schedule_start",
      clock "Schedule start must have hours 0-23, minutes 0-59"
        (ProgramControl.schedule_start c));
    (program "schedule_end",
      clock "Schedule end must have hours 0-23, minutes 0-59"
        (ProgramControl.schedule_end c));
    (program "egg_timer",
      clock "Egg timer must have hours 0-23, minutes 0-59"
        (ProgramControl.egg_timer c)) ].

(** The request body [{"program_id": i, "mode": "DISABLED"}]. *)
Definition disable_program (i : Z) : ProgramControl.t :=
  ProgramControl.Build i None (Some "DISABLED") None None None.

(** The request body [{"program_id": i, "rpm": 2000}]. *)
Definition program_rpm (i : Z) : ProgramControl.t :=
  ProgramControl.Build i (Some 2000) None None None None.

Section Program_tail.
Context {D : Type} `{Driver D}.

(** The handler past its two guards: [mode], then the rest of the slot. *)
Definition program_fields (c : ProgramControl.t)
  : M D (list (string * string)) :=
  let program := ProgAttr (ProgramControl.program_id c) in
  if_not_None (ProgramControl.mode c) (fun mode =>
    match mode_map !! mode with
    | Some code =>
        _ <- pump_get (program "mode") ;;
        pump_set (program "mode") (VInt code)
    | None =>
        raise (HTTPException 400
                 (Text "Mode must be MANUAL, EGG_TIMER, SCHEDULE, or DISABLED"))
    end) ;;
  run_plan (program_plan c) (ret success).

End Program_tail.

Section Program_mode.
Context {D : Type} `{Driver D}.

(** The [mode] field of [/program] on its own: what the handler does
    between its two guards and the rest of the slot. *)
Definition mode_step (c : ProgramControl.t) : M D unit :=
  let program := ProgAttr (ProgramControl.program_id c) in
  if_not_None (ProgramControl.mode c) (fun mode =>
    match mode_map !! mode with
    | Some code =>
        _ <- pump_get (program "mode") ;;
        pump_set (program "mode") (VInt code)
    | None =>
        raise (HTTPException 400
                 (Text "Mode must be MANUAL, EGG_TIMER, SCHEDULE, or DISABLED"))
    end).

End Program_mode.

(** A table in which two labels share a code. *)
Definition shared_code_table : list (string * Z) :=
  [("FIRST", 1); ("SECOND", 1); ("THIRD", 0)].

(** ** Well-typed status registers *)

(** The integer a driver value stands for where one is expected. *)
Definition int_of (v : value) : Z :=
  match v with
  | VInt n => n
  | VBool b => Z.b2z b
  | VList _ => 0
  end.

Definition is_number (v : value) : bool :=
  match v with
  | VList _ => false
  | _ => true
  end.

Definition is_clock (v : value) : bool :=
  match v with
  | VList l => (2 <=? length l)%nat
  | _ => false
  end.

(** The status registers [get_status] reads have the types it expects:
    numbers for [rpm], [watts] and [mode], at least [hour, minute] for
    [time] (absent registers take their defaults). *)
Definition status_typed (st : gmap string value) : bool :=
  is_number (default (VInt 0) (st !! "rpm"))
  && is_number (default (VInt 0) (st !! "watts"))
  && is_number (default (VInt 0) (st !! "mode"))
  && is_clock (default (VList [0; 0]) (st !! "time")).

(** ** Pumps whose configuration can be read *)

Definition is_present (o : option value) : bool :=
  match o with
  | Some _ => true
  | None => false
  end.

(** Program [i] of the simulated pump has all five registers, and its
    mode indexes the three labels of [get_config]. *)
Definition readable_program (d : Sim.t) (i : Z) : bool :=
  is_present (Sim.regs d (ProgAttr i "rpm"))
  && match Sim.regs d (ProgAttr i "mode") with
     | Some v => is_number v && between (-3) (int_of v) 2
     | None => false
     end
  && is_present (Sim.regs d (ProgAttr i "schedule_start"))
  && is_present (Sim.regs d (ProgAttr i "schedule_end"))
  && is_present (Sim.regs d (ProgAttr i "egg_timer")).

(** Everything [get_config] reads is there with the type it needs. *)
Definition config_readable (d : Sim.t) : bool :=
  Sim.online d
  && forallb (readable_program d) [1; 2; 3; 4]
  && match Sim.regs d (Attr "dt") with
     | Some (VList l) => (7 <=? length l)%nat
     | _ => false
     end
  && forallb (fun name => is_present (Sim.regs d (Attr name)))
       ("run" :: config_attrs)
  && match Sim.regs d (Setting "RUNNING_PROGRAM") with
     | Some v => is_number v
     | None => false
     end.

(** A computation that leaves the session as it found it. *)
Definition read_only {D A} (m : M D A) : Prop := forall s, (m s).2 = s.

(** ** [POST /run] *)

Section Run.
Context {D : Type} `{Driver D}.

(** [control.state] of a [RunRequest] is a required boolean; the handler
    assigns it to [pump.run] as it is, reads [pump.run] back for its log
    line and reports what it was asked to do. *)
Definition run_pump_body (state : bool) : M D (list (string * string)) :=
  pump_set (Attr "run") (VBool state) ;;
  _ <- pump_get (Attr "run") ;;
  ret [("status", "success");
       ("message", if state then "Pump started" else "Pump stopped")].

Definition run_pump (state : bool) : M D (list (string * string)) :=
  except_Exception (run_pump_body state).

End Run.

(** The request body [{"state": b}] of [/control]. *)
Definition only_state (b : bool) : PumpControl.t :=
  PumpControl.Build (Some b) None None None None None None None None None
    None None None None None None None None None None None None None None
    None.

(** The request body [{"state": true, "speed": 449}]. *)
Definition start_then_bad_speed : PumpControl.t :=
  PumpControl.Build (Some true) (Some 449) None None None None None None
    None None None None None None None None None None None None None None
    None None None.

(** The request body [{"quick_timer": [1, 30, 99]}]. *)
Definition long_quick_timer : list Z := [1; 30; 99].

(** A request that carries boolean fields only. *)
Definition flags_only (c : PumpControl.t) : Prop :=
  PumpControl.speed c = None /\ PumpControl.ramp c = None
  /\ PumpControl.contrast c = None /\ PumpControl.address c = None
  /\ PumpControl.id c = None /\ PumpControl.max_rpm c = None
  /\ PumpControl.min_rpm c = None /\ PumpControl.quick_rpm c = None
  /\ PumpControl.quick_timer c = None
  /\ PumpControl.prime_max_time c = None
  /\ PumpControl.prime_sensitivity c = None
  /\ PumpControl.prime_delay c = None
  /\ PumpControl.antifreeze_rpm c = None
  /\ PumpControl.antifreeze_temp c = None
  /\ PumpControl.svrs_restart_timer c = None
  /\ PumpControl.time_out_timer c = None
  /\ PumpControl.running_program c = None
  /\ PumpControl.selected_program c = None.

(** The request body with all seven boolean fields set to [b]. *)
Definition all_flags (b : bool) : PumpControl.t :=
  PumpControl.Build (Some b) None None (Some b) (Some b) None None None
    (Some b) None None None None (Some b) None None None (Some b) None None
    (Some b) None None None None.

(** The request body [{"program_id": i, "schedule_start": l}]. *)
Definition program_start (i : Z) (l : list Z) : ProgramControl.t :=
  ProgramControl.Build i None None (Some l) None None.

(** The request body [{"program_id": i}]: no field to edit. *)
Definition program_nothing (i : Z) : ProgramControl.t :=
  ProgramControl.Build i None None None None None.

(** The request body [{"program_id": i, "mode": m}]. *)
Definition program_mode (i : Z) (m : string) : ProgramControl.t :=
  ProgramControl.Build i None (Some m) None None None.

(** The request body [{"program_id": i, "mode": m, "rpm": n}]. *)
Definition program_mode_rpm (i : Z) (m : string) (n : Z) : ProgramControl.t :=
  ProgramControl.Build i (Some n) (Some m) None None None.

(** A pump that answers but does not know the mode of program 1. *)
Definition blank_program_pump : Sim.t :=
  Sim.Build
    (fun x =>
       if decide (x = ProgAttr 1 "mode") then None else Sim.regs idle_pump x)
    (Sim.status idle_pump) true.

(** A two-entry label table to run the read handlers with (the driver's
    own [PUMP_MODES] and [WEEKDAYS] are parameters of the handlers). *)
Definition sample_table : list (string * Z) := [("FIRST", 0); ("SECOND", 1)].

(** The list a driver value holds, if it is one. *)
Definition list_of (v : value) : list Z :=
  match v with
  | VList l => l
  | _ => []
  end.


(** * Properties *)

(** ** The handler monad *)

Lemma bind_cong {D A B} (m m' : M D A) (k k' : A -> M D B) :
  (forall s, m s = m' s) -> (forall a s, k a s = k' a s) ->
  forall s, bind m k s = bind m' k' s.
Proof.
  intros Hm Hk s. unfold bind. rewrite Hm.
  destruct (m' s) as [[a|e] s']; [apply Hk | reflexivity].
Qed.

Lemma except_Exception_cases {D A} (m : M D A) (s : session D) :
  (exists a, (except_Exception m s).1 = Ret a /\ (m s).1 = Ret a) \/
  (exists e, (except_Exception m s).1 = Raise (HTTPException 500 (Str e)) /\
             (m s).1 = Raise e).
Proof.
  unfold except_Exception. destruct (m s) as [[a|e] s']; simpl; eauto.
Qed.

Section Control_facts.
Context {D : Type} `{Driver D}.

Lemma step_run_code (o : option bool) (s : session D) :
  if_not_None o (fun state =>
    pump_set (Attr "run") (VInt (if state then 0x0A else 0x04))) s
  = interp (Attr "run", run_code o) s.
Proof. destruct o; reflexivity. Qed.

Lemma step_flag t (o : option bool) (s : session D) :
  if_not_None o (fun b => pump_set t (VBool b)) s = interp (t, flag o) s.
Proof. destruct o; reflexivity. Qed.

Lemma step_ranged t lo hi detail (o : option Z) (s : session D) :
  if_not_None o (fun x =>
    if between lo x hi then pump_set t (VInt x)
    else raise (HTTPException 400 (Text detail))) s
  = interp (t, ranged lo hi detail o) s.
Proof.
  destruct o as [x|]; [|reflexivity].
  unfold interp, ranged; simpl. destruct (between lo x hi); reflexivity.
Qed.

Lemma step_scaled t detail (o : option Z) (s : session D) :
  if_not_None o (fun x =>
    if between 1 x 4 then pump_set t (VInt (x * 8))
    else raise (HTTPException 400 (Text detail))) s
  = interp (t, scaled detail o) s.
Proof.
  destruct o as [x|]; [|reflexivity].
  unfold interp, scaled; simpl. destruct (between 1 x 4); reflexivity.
Qed.

Lemma step_timer t detail (o : option (list Z)) (s : session D) :
  if_not_None o (fun l =>
    ok <- and_then (h <- getitem l 0 ;; ret (between 0 h 9))
                   (m <- getitem l 1 ;; ret (between 0 m 59)) ;;
    if ok : bool then pump_set t (VList l)
    else raise (HTTPException 400 (Text detail))) s
  = interp (t, timer detail o) s.
Proof.
  destruct o as [l|]; [|reflexivity].
  unfold interp, timer, and_then, getitem, bind, ret, raise; simpl.
  destruct (l !! 0%nat) as [h|]; [|reflexivity].
  destruct (between 0 h 9); [|reflexivity].
  destruct (l !! 1%nat) as [m|]; [|reflexivity].
  destruct (between 0 m 59); reflexivity.
Qed.

(** [control_pump] treats the fields as the contract says, in its order. *)
Lemma control_pump_body_plan (c : PumpControl.t) (s : session D) :
  control_pump_body c s = run_plan (plan c) (ret success) s.
Proof.
  unfold control_pump_body, plan. cbn [run_plan].
  revert s.
  repeat (apply bind_cong;
          [ intros s;
            first [ apply step_run_code | apply step_flag | apply step_ranged
                  | apply step_scaled | apply step_timer ]
          | intros _ ]).
  reflexivity.
Qed.

End Control_facts.

Section Plan_facts.
Context {D : Type} `{Driver D}.

Lemma run_plan_app {A} (p q : list (target * check)) (k : M D A) s :
  run_plan (p ++ q) k s = run_plan p (run_plan q k) s.
Proof.
  revert s. induction p as [|e p IH]; intros s; [reflexivity|].
  simpl. apply bind_cong; [reflexivity | intros _ s'; apply IH].
Qed.

Lemma pump_set_delivered t v (s : session D) :
  (writeField t v (dev s)).2 = None ->
  pump_set t v s
  = (Ret tt, Session (writeField t v (dev s)).1 (issued s ++ [(t, v)])).
Proof.
  unfold pump_set. destruct (writeField t v (dev s)) as [d' err]; simpl.
  intros ->. reflexivity.
Qed.

(** Entries that pass, over a link that delivers, leave exactly their
    writes behind. *)
Lemma run_plan_pass {A} (p : list (target * check)) (k : M D A) s :
  Forall passes p -> delivered (writes_of p) (dev s) ->
  run_plan p k s
  = k (Session (send (writes_of p) (dev s)) (issued s ++ writes_of p)).
Proof.
  revert s. induction p as [|[t c] p IH]; intros s Hp Hd.
  - destruct s; simpl. by rewrite app_nil_r.
  - inversion Hp as [|? ? Ht Hp']; subst.
    destruct c as [|v| |]; try (by destruct Ht); simpl in *.
    + unfold bind, interp; simpl. by apply IH.
    + destruct Hd as [Hw Hd].
      unfold bind, interp; simpl. rewrite pump_set_delivered by done.
      rewrite IH by done. simpl. by rewrite <- app_assoc.
Qed.

(** The first entry that does not pass stops the request there. *)
Lemma run_plan_stop {A} (pre post : list (target * check)) t c e
    (k : M D A) s :
  Forall passes pre -> delivered (writes_of pre) (dev s) ->
  raised c = Some e ->
  run_plan (pre ++ (t, c) :: post) k s
  = (Raise e,
     Session (send (writes_of pre) (dev s)) (issued s ++ writes_of pre)).
Proof.
  intros Hp Hd Hc. rewrite run_plan_app, run_plan_pass by done.
  destruct c; simpl in Hc; try discriminate; by inversion Hc.
Qed.

(** A request that returns passed every entry and delivered every write. *)
Lemma run_plan_Ret {A} (p : list (target * check)) (k : M D A) s r s' :
  run_plan p k s = (Ret r, s') ->
  Forall passes p /\ delivered (writes_of p) (dev s) /\
  k (Session (send (writes_of p) (dev s)) (issued s ++ writes_of p))
  = (Ret r, s').
Proof.
  revert s. induction p as [|[t c] p IH]; intros s Hr.
  - destruct s; simpl in *. by rewrite app_nil_r.
  - simpl in Hr. unfold bind, interp in Hr; simpl in Hr.
    destruct c as [|v|detail|x]; simpl in Hr; try discriminate.
    + apply IH in Hr as (Hp & Hd & Hk).
      split; [by constructor|]. by split.
    + unfold pump_set in Hr.
      destruct (writeField t v (dev s)) as [d' err] eqn:Hw.
      destruct err; [discriminate|].
      apply IH in Hr as (Hp & Hd & Hk). simpl in *.
      split; [by constructor|]. rewrite Hw; simpl.
      split; [done|]. by rewrite <- app_assoc in Hk.
Qed.

(** With an entry that does not pass, the request cannot return. *)
Lemma run_plan_raises {A} (p : list (target * check)) (k : M D A) s :
  Exists (fun e => ~ passes e) p -> exists e, (run_plan p k s).1 = Raise e.
Proof.
  revert s. induction p as [|[t c] p IH]; intros s Hex.
  - inversion Hex.
  - simpl. unfold bind.
    destruct (interp (t, c) s) as [[[]|e] s1] eqn:Hi; [|by eauto].
    apply IH. inversion Hex as [? ? Hn|]; subst; [|done].
    exfalso. unfold interp in Hi; simpl in Hi.
    destruct c; try discriminate; apply Hn; exact I.
Qed.

End Plan_facts.

(** ** [POST /control]: what a rejected field costs *)

Lemma sim_delivered (ws : list (target * value)) (d : Sim.t) :
  Sim.online d = true -> delivered ws d.
Proof.
  revert d. induction ws as [|[t v] ws IH]; intros d Hon; simpl; [done|].
  rewrite Hon; simpl. split; [done|]. by apply IH.
Qed.

(** C1. A [/control] request with a field outside its range is answered
    with status 500, never 400: the 400 raised for the field is caught by
    the handler's own [except Exception] and re-raised as a 500.  This
    holds with or without a communication failure. *)
Theorem control_pump_out_of_range_status `{Driver D}
    (c : PumpControl.t) (s : session D) t detail :
  (t, Reject detail) ∈ plan c ->
  status_code_of (control_pump c s).1 = 500
  /\ status_code_of (control_pump c s).1 <> 400.
Proof.
  intros Hin.
  assert (exists e, (control_pump_body c s).1 = Raise e) as [e He].
  { rewrite control_pump_body_plan. apply run_plan_raises.
    apply Exists_exists. exists (t, Reject detail). split; [done|].
    intros Hp. exact Hp. }
  unfold control_pump, except_Exception.
  destruct (control_pump_body c s) as [[a|e'] s']; simpl in *; [discriminate|].
  split; [reflexivity | discriminate].
Qed.

Lemma control_pump_out_of_range_status_witness :
  (Attr "trpm", Reject "Speed must be between 450 and 3450 RPM")
    ∈ plan (Field.request Field.speed 449)
  /\ status_code_of
       (control_pump (Field.request Field.speed 449) (start idle_pump)).1
     = 500.
Proof.
  assert ((Attr "trpm", Reject "Speed must be between 450 and 3450 RPM")
            ∈ plan (Field.request Field.speed 449)) as Hin.
  { apply list_elem_of_In. vm_compute. tauto. }
  split; [exact Hin|].
  exact (proj1 (control_pump_out_of_range_status
                  (Field.request Field.speed 449) (start idle_pump) _ _ Hin)).
Defined.

Lemma control_pump_first `{Driver D} (c : PumpControl.t) (s : session D)
    pre t detail post :
  plan c = pre ++ (t, Reject detail) :: post ->
  Forall passes pre -> delivered (writes_of pre) (dev s) ->
  control_pump c s
  = (Raise (HTTPException 500 (Str (HTTPException 400 (Text detail)))),
     Session (send (writes_of pre) (dev s)) (issued s ++ writes_of pre)).
Proof.
  intros Hplan Hpre Hd. unfold control_pump, except_Exception.
  rewrite control_pump_body_plan, Hplan.
  by rewrite (run_plan_stop pre post t (Reject detail)
                (HTTPException 400 (Text detail))).
Qed.

(** C2. For each numeric field of [/control], alone in a request: the
    range minimum and maximum are accepted, with exactly one device write
    and the success reply; one unit below or above, no write is issued and
    the 400 raised for the field reaches the client as a 500. *)
Theorem control_pump_boundaries `{Driver D} (f : Field.t) (d : D) :
  (forall x, (writeField (Field.write f x).1 (Field.write f x).2 d).2 = None) ->
  let lo := (Field.range f).1 in
  let hi := (Field.range f).2 in
  (forall x, x = lo \/ x = hi ->
     (control_pump (Field.request f x) (start d)).1 = Ret success
     /\ issued (control_pump (Field.request f x) (start d)).2
        = [Field.write f x])
  /\ (forall x, x = lo - 1 \/ x = hi + 1 ->
        exists detail,
          control_pump (Field.request f x) (start d)
          = (Raise (HTTPException 500
                      (Str (HTTPException 400 (Text detail)))),
             start d)).
Proof.
  intros Hw lo hi. split.
  - intros x Hx. specialize (Hw x).
    destruct f; simpl in *; destruct Hx as [-> | ->];
      unfold control_pump, except_Exception, control_pump_body, bind,
        pump_set; simpl;
      match goal with
      | |- context [writeField ?t ?v ?d] =>
          destruct (writeField t v d) as [d' err]
      end; simpl in Hw; subst err; split; reflexivity.
  - intros x Hx.
    destruct f; simpl in *; destruct Hx as [-> | ->];
      eexists; reflexivity.
Qed.

Lemma control_pump_boundaries_witness :
  (control_pump (Field.request Field.speed 450) (start idle_pump)).1
  = Ret success
  /\ issued (control_pump (Field.request Field.speed 450) (start idle_pump)).2
     = [(Attr "trpm", VInt 450)]
  /\ status_code_of
       (control_pump (Field.request Field.speed 449) (start idle_pump)).1
     = 500.
Proof.
  assert (forall x,
            (writeField (Field.write Field.speed x).1
               (Field.write Field.speed x).2 idle_pump).2 = None) as Hw.
  { intros x. reflexivity. }
  destruct (control_pump_boundaries Field.speed idle_pump Hw) as [Hin Hout].
  destruct (Hin 450 (or_introl eq_refl)) as [Hret Hiss].
  destruct (Hout 449 (or_introl eq_refl)) as [detail Hrej].
  split; [exact Hret|]. split; [exact Hiss|].
  rewrite Hrej. reflexivity.
Defined.

Lemma writes_of_targets (p : list (target * check)) :
  Forall (fun w => w.1 ∈ p.*1) (writes_of p).
Proof.
  induction p as [|[t c] p IH]; simpl; [constructor|].
  assert (Forall (fun w : target * value => w.1 ∈ t :: p.*1) (writes_of p)).
  { eapply Forall_impl; [exact IH|]. intros w Hw. by right. }
  destruct c; try done. constructor; [by left | done].
Qed.

Lemma plan_order (c : PumpControl.t) : (plan c).*1 = field_order.
Proof. reflexivity. Qed.

Lemma field_order_NoDup : NoDup field_order.
Proof. apply (bool_decide_unpack (NoDup field_order)). vm_compute. exact I. Qed.

(** C7. [/control] treats its fields in the one order [field_order],
    whatever the request.  When a field fails validation, the writes of
    the valid fields before it have been issued, in that order, and the
    device keeps them; nothing is written for the failing field or for any
    field after it. *)
Theorem control_pump_no_rollback `{Driver D}
    (c : PumpControl.t) (s : session D) pre t detail post :
  plan c = pre ++ (t, Reject detail) :: post ->
  Forall passes pre ->
  delivered (writes_of pre) (dev s) ->
  (plan c).*1 = field_order
  /\ (control_pump c s).1
     = Raise (HTTPException 500 (Str (HTTPException 400 (Text detail))))
  /\ issued (control_pump c s).2 = issued s ++ writes_of pre
  /\ dev (control_pump c s).2 = send (writes_of pre) (dev s)
  /\ Forall (fun w => w.1 ∈ pre.*1 /\ w.1 <> t /\ w.1 ∉ post.*1)
       (writes_of pre).
Proof.
  intros Hplan Hpre Hd. split; [apply plan_order|].
  rewrite (control_pump_first c s pre t detail post) by done. simpl.
  do 3 (split; [reflexivity|]).
  pose proof field_order_NoDup as Hnd.
  rewrite <- (plan_order c), Hplan, fmap_app, fmap_cons in Hnd.
  apply NoDup_app in Hnd as (_ & Hdisj & _). simpl in Hdisj.
  eapply Forall_impl; [apply writes_of_targets|].
  intros w Hw. split; [done|]. specialize (Hdisj _ Hw).
  split.
  - intros Heq. apply Hdisj. rewrite Heq. by left.
  - intros Hin. apply Hdisj. by right.
Qed.

Lemma control_pump_no_rollback_witness :
  (control_pump speed_then_bad_ramp (start idle_pump)).1
  = Raise (HTTPException 500
             (Str (HTTPException 400
                     (Text "Ramp must be between 100 and 200"))))
  /\ issued (control_pump speed_then_bad_ramp (start idle_pump)).2
     = [(Attr "trpm", VInt 2000)].
Proof.
  assert (plan speed_then_bad_ramp
          = take 2 (plan speed_then_bad_ramp)
            ++ (Attr "ramp", Reject "Ramp must be between 100 and 200")
            :: drop 3 (plan speed_then_bad_ramp)) as Hplan.
  { reflexivity. }
  assert (Forall passes (take 2 (plan speed_then_bad_ramp))) as Hpre.
  { repeat constructor. }
  assert (delivered (writes_of (take 2 (plan speed_then_bad_ramp)))
            (dev (start idle_pump))) as Hd.
  { apply sim_delivered. reflexivity. }
  destruct (control_pump_no_rollback speed_then_bad_ramp (start idle_pump)
              _ _ _ _ Hplan Hpre Hd) as (_ & Hr & Hi & _).
  split; [exact Hr | exact Hi].
Defined.

(** C8. A [selected_program] outside 1 to 8 is rejected with a message
    that gives the range as 1 to 4 (and, like every rejection, reaches the
    client wrapped in a 500). *)
Theorem selected_program_message `{Driver D} (d : D) (x : Z) :
  ~ (1 <= x <= 8) ->
  control_pump (Field.request Field.selected_program x) (start d)
  = (Raise (HTTPException 500
              (Str (HTTPException 400
                      (Text "Selected program must be between 1 and 4")))),
     start d).
Proof.
  intros Hx.
  unfold control_pump, except_Exception, control_pump_body, bind; simpl.
  destruct (between 1 x 8) eqn:Hb; [|reflexivity].
  unfold between in Hb. lia.
Qed.

Lemma selected_program_message_witness :
  ~ (1 <= 9 <= 8)
  /\ control_pump (Field.request Field.selected_program 9) (start idle_pump)
     = (Raise (HTTPException 500
                 (Str (HTTPException 400
                         (Text "Selected program must be between 1 and 4")))),
        start idle_pump).
Proof.
  assert (~ (1 <= 9 <= 8)) as Hx by lia.
  split; [exact Hx|].
  exact (selected_program_message idle_pump 9 Hx).
Defined.

(** ** [POST /program] *)

Section Program_facts.
Context {D : Type} `{Driver D}.

Lemma step_clock t detail (o : option (list Z)) (s : session D) :
  if_not_None o (fun l =>
    ok <- and_then (ret (length l =? 2)%nat)
            (and_then (h <- getitem l 0 ;; ret (between 0 h 23))
                      (m <- getitem l 1 ;; ret (between 0 m 59))) ;;
    if ok : bool then pump_set t (VList l)
    else raise (HTTPException 400 (Text detail))) s
  = interp (t, clock detail o) s.
Proof.
  destruct o as [l|]; [|reflexivity].
  unfold interp, clock, and_then, getitem, bind, ret, raise; simpl.
  destruct (length l =? 2)%nat; [|reflexivity].
  destruct (l !! 0%nat) as [h|]; [|reflexivity].
  destruct (between 0 h 23); [|reflexivity].
  destruct (l !! 1%nat) as [m|]; [|reflexivity].
  destruct (between 0 m 59); reflexivity.
Qed.

(** The length check comes first: a [/program] clock never raises on
    indexing. *)
Lemma clock_checked detail (o : option (list Z)) :
  raised (clock detail o) = None
  \/ raised (clock detail o) = Some (HTTPException 400 (Text detail)).
Proof.
  destruct o as [l|]; [|by left]. unfold clock.
  destruct l as [|h [|m [|x l]]]; simpl; try by right.
  destruct (between 0 h 23); [|by right].
  destruct (between 0 m 59); [by left | by right].
Qed.

Lemma clock_short detail (l : list Z) :
  (length l < 2)%nat -> clock detail (Some l) = Reject detail.
Proof.
  intros Hl. unfold clock.
  destruct (Nat.eqb_spec (length l) 2) as [Heq|]; [lia | reflexivity].
Qed.

Lemma control_program_body_idle (c : ProgramControl.t) (s : session D) v :
  1 <= ProgramControl.program_id c <= 8 ->
  readField (Attr "mode") (dev s) = Done v ->
  truthy v = false ->
  control_program_body c s = program_fields c s.
Proof.
  intros Hid Hmode Hv.
  unfold control_program_body.
  assert (between 1 (ProgramControl.program_id c) 8 = true) as Hb.
  { unfold between. lia. }
  unfold bind at 1. rewrite Hb. simpl.
  unfold bind at 1. unfold pump_get at 1. rewrite Hmode.
  unfold bind at 1. unfold pump_get at 1. rewrite Hmode.
  unfold bind at 1. rewrite Hv. simpl.
  unfold program_fields. revert s Hmode.
  intros s _. apply bind_cong; [reflexivity|]. intros _.
  unfold program_plan. cbn [run_plan].
  repeat (apply bind_cong;
          [ intros s'; first [ apply step_ranged | apply step_clock ]
          | intros _ ]).
  reflexivity.
Qed.

End Program_facts.

(** C3. A [/program] request whose [program_id] is outside 1 to 8 is
    turned away before the pump is touched, whatever else it carries: no
    read, no write.  The 400 raised for it reaches the client as a 500. *)
Theorem control_program_bad_id `{Driver D}
    (c : ProgramControl.t) (s : session D) :
  ~ (1 <= ProgramControl.program_id c <= 8) ->
  control_program c s
  = (Raise (HTTPException 500
              (Str (HTTPException 400
                      (Text "Program ID must be between 1 and 8")))),
     s).
Proof.
  intros Hid. unfold control_program, except_Exception, control_program_body.
  unfold bind at 1.
  assert (between 1 (ProgramControl.program_id c) 8 = false) as ->.
  { unfold between. lia. }
  reflexivity.
Qed.

Lemma control_program_bad_id_witness :
  ~ (1 <= ProgramControl.program_id (program_rpm 9) <= 8)
  /\ control_program (program_rpm 9) (start idle_pump)
     = (Raise (HTTPException 500
                 (Str (HTTPException 400
                         (Text "Program ID must be between 1 and 8")))),
        start idle_pump).
Proof.
  assert (~ (1 <= ProgramControl.program_id (program_rpm 9) <= 8)) as Hid.
  { simpl. lia. }
  split; [exact Hid|].
  exact (control_program_bad_id (program_rpm 9) (start idle_pump) Hid).
Defined.

(** C4. With a valid [program_id], while [pump.mode] reads as running the
    request is refused with "cannot modify program" and the session is
    left as it was: no write to any program-slot field is issued.  The
    400 raised for it reaches the client as a 500. *)
Theorem control_program_running `{Driver D}
    (c : ProgramControl.t) (s : session D) (v : value) :
  1 <= ProgramControl.program_id c <= 8 ->
  readField (Attr "mode") (dev s) = Done v ->
  truthy v = true ->
  control_program c s
  = (Raise (HTTPException 500
              (Str (HTTPException 400
                      (Text "Pump is currently running, cannot modify program")))),
     s).
Proof.
  intros Hid Hmode Hv.
  unfold control_program, except_Exception, control_program_body.
  assert (between 1 (ProgramControl.program_id c) 8 = true) as Hb.
  { unfold between. lia. }
  unfold bind at 1. rewrite Hb. simpl.
  unfold bind at 1. unfold pump_get at 1. rewrite Hmode.
  unfold bind at 1. unfold pump_get at 1. rewrite Hmode.
  unfold bind at 1. rewrite Hv. reflexivity.
Qed.

Lemma control_program_running_witness :
  control_program (program_rpm 1) (start running_pump)
  = (Raise (HTTPException 500
              (Str (HTTPException 400
                      (Text "Pump is currently running, cannot modify program")))),
     start running_pump).
Proof.
  assert (1 <= ProgramControl.program_id (program_rpm 1) <= 8) as Hid.
  { simpl. lia. }
  exact (control_program_running (program_rpm 1) (start running_pump)
           (VInt 1) Hid eq_refl eq_refl).
Defined.

(** ** Short timer lists *)

Lemma timer_short detail (l : list Z) :
  (length l < 2)%nat ->
  raised (timer detail (Some l))
  = Some (match l with
          | [] => IndexError
          | h :: _ =>
              if between 0 h 9 then IndexError
              else HTTPException 400 (Text detail)
          end).
Proof.
  intros Hl. destruct l as [|h [|m l]]; simpl in *; [done | | lia].
  by destruct (between 0 h 9).
Qed.

Lemma raised_not_passes t chk e : raised chk = Some e -> ~ passes (t, chk).
Proof. destruct chk; simpl; try discriminate; tauto. Qed.

Lemma control_pump_stop `{Driver D} (c : PumpControl.t) (s : session D)
    pre t chk e post :
  plan c = pre ++ (t, chk) :: post ->
  raised chk = Some e ->
  Forall passes pre -> delivered (writes_of pre) (dev s) ->
  control_pump c s
  = (Raise (HTTPException 500 (Str e)),
     Session (send (writes_of pre) (dev s)) (issued s ++ writes_of pre)).
Proof.
  intros Hplan He Hpre Hd. unfold control_pump, except_Exception.
  rewrite control_pump_body_plan, Hplan.
  by rewrite (run_plan_stop pre post t chk e).
Qed.

Lemma control_program_stop `{Driver D} (c : ProgramControl.t)
    (s : session D) v pre t chk e post :
  1 <= ProgramControl.program_id c <= 8 ->
  readField (Attr "mode") (dev s) = Done v ->
  truthy v = false ->
  ProgramControl.mode c = None ->
  program_plan c = pre ++ (t, chk) :: post ->
  raised chk = Some e ->
  Forall passes pre -> delivered (writes_of pre) (dev s) ->
  control_program c s
  = (Raise (HTTPException 500 (Str e)),
     Session (send (writes_of pre) (dev s)) (issued s ++ writes_of pre)).
Proof.
  intros Hid Hmode Hv Hnone Hplan He Hpre Hd.
  unfold control_program, except_Exception.
  rewrite (control_program_body_idle c s v) by done.
  unfold program_fields. rewrite Hnone.
  unfold bind at 1. unfold if_not_None. unfold ret at 1. cbv beta iota.
  rewrite Hplan. by rewrite (run_plan_stop pre post t chk e).
Qed.

Lemma writes_of_elem (p : list (target * check)) t v :
  (t, v) ∈ writes_of p -> (t, Accept v) ∈ p.
Proof.
  induction p as [|[t' c] p IH]; simpl; [by intros ?%elem_of_nil|].
  destruct c; try (intros Hin; right; by apply IH).
  intros [Heq | Hin]%elem_of_cons; [simplify_eq; by left | right; by apply IH].
Qed.

Lemma run_plan_trace `{Driver D} {A} (p : list (target * check))
    (k : M D A) (s : session D) :
  read_only k ->
  exists ws,
    ws `prefix_of` writes_of p
    /\ issued (run_plan p k s).2 = issued s ++ ws
    /\ dev (run_plan p k s).2 = send ws (dev s)
    /\ (forall r, (run_plan p k s).1 = Ret r -> ws = writes_of p).
Proof.
  intros Hk. revert s. induction p as [|[t c] p IH]; intros s.
  - exists []. simpl. rewrite (Hk s), app_nil_r. by repeat split.
  - simpl. unfold bind, interp. cbn [fst snd].
    destruct c as [|v|detail|e].
    + destruct (IH s) as (ws & Hpre & Hiss & Hdev & Hret).
      exists ws. by repeat split.
    + unfold pump_set.
      destruct (writeField t v (dev s)) as [d' [text|]] eqn:Hw.
      * exists [(t, v)]. cbn [fst snd issued dev send]. rewrite Hw.
        split; [by apply prefix_cons, prefix_nil|].
        by repeat split.
      * destruct (IH (Session d' (issued s ++ [(t, v)])))
          as (ws & Hpre & Hiss & Hdev & Hret).
        exists ((t, v) :: ws). cbn [dev issued send] in *. rewrite Hw.
        split; [by apply prefix_cons|].
        split; [by rewrite Hiss, <- app_assoc|].
        split; [done|].
        intros r Hr. f_equal. by apply (Hret r).
    + exists []. cbn [fst snd send]. rewrite app_nil_r.
      split; [apply prefix_nil|]. by repeat split.
    + exists []. cbn [fst snd send]. rewrite app_nil_r.
      split; [apply prefix_nil|]. by repeat split.
Qed.

Lemma fst_unique {A B} (l : list (A * B)) a b b' :
  NoDup l.*1 -> (a, b) ∈ l -> (a, b') ∈ l -> b = b'.
Proof.
  induction l as [|[a0 b0] l IH]; intros Hnd Hb Hb'.
  - by apply elem_of_nil in Hb.
  - rewrite fmap_cons in Hnd. apply NoDup_cons in Hnd as [Hnotin Hnd].
    apply elem_of_cons in Hb as [Hb|Hb];
      apply elem_of_cons in Hb' as [Hb'|Hb'].
    + congruence.
    + exfalso. apply Hnotin. injection Hb as -> ->.
      apply list_elem_of_fmap. by exists (a0, b').
    + exfalso. apply Hnotin. injection Hb' as -> ->.
      apply list_elem_of_fmap. by exists (a0, b).
    + by apply IH.
Qed.

(** A field whose entry does not pass is not written, whatever else the
    request carries and however the link behaves. *)
Lemma control_pump_not_written `{Driver D} (c : PumpControl.t)
    (s : session D) t chk e :
  (t, chk) ∈ plan c -> raised chk = Some e ->
  exists ws,
    issued (control_pump c s).2 = issued s ++ ws
    /\ Forall (fun w => w.1 <> t) ws.
Proof.
  intros Hin He.
  destruct (run_plan_trace (plan c) (ret success) s (fun _ => eq_refl))
    as (ws & Hpre & Hiss & _).
  exists ws. split.
  - rewrite <- Hiss. unfold control_pump, except_Exception.
    rewrite control_pump_body_plan.
    by destruct (run_plan (plan c) (ret success) s) as [[r|e'] s1].
  - apply Forall_forall. intros [t' v] Hw Heq. cbn in Heq. subst t'.
    assert ((t, Accept v) ∈ plan c) as Hacc.
    { apply writes_of_elem. destruct Hpre as [rest ->].
      apply elem_of_app. by left. }
    assert (Accept v = chk) as <-.
    { apply (fst_unique (plan c) t); [|done|done].
      rewrite plan_order. apply field_order_NoDup. }
    discriminate He.
Qed.

Lemma control_pump_body_stop `{Driver D} (c : PumpControl.t) (s : session D)
    pre t chk e post :
  plan c = pre ++ (t, chk) :: post ->
  raised chk = Some e ->
  Forall passes pre -> delivered (writes_of pre) (dev s) ->
  control_pump_body c s
  = (Raise e,
     Session (send (writes_of pre) (dev s)) (issued s ++ writes_of pre)).
Proof.
  intros Hplan He Hpre Hd. rewrite control_pump_body_plan, Hplan.
  by rewrite (run_plan_stop pre post t chk e).
Qed.

(** [mode_step] is the first half of [program_fields]. *)
Lemma program_fields_mode_step `{Driver D} (c : ProgramControl.t)
    (s : session D) :
  program_fields c s
  = bind (mode_step c) (fun _ => run_plan (program_plan c) (ret success)) s.
Proof. reflexivity. Qed.

Lemma control_program_body_stop `{Driver D} (c : ProgramControl.t)
    (s s1 : session D) v pre t chk e post :
  1 <= ProgramControl.program_id c <= 8 ->
  readField (Attr "mode") (dev s) = Done v ->
  truthy v = false ->
  mode_step c s = (Ret tt, s1) ->
  program_plan c = pre ++ (t, chk) :: post ->
  raised chk = Some e ->
  Forall passes pre -> delivered (writes_of pre) (dev s1) ->
  control_program_body c s
  = (Raise e,
     Session (send (writes_of pre) (dev s1)) (issued s1 ++ writes_of pre)).
Proof.
  intros Hid Hmode Hv Hstep Hplan He Hpre Hd.
  rewrite (control_program_body_idle c s v) by done.
  rewrite program_fields_mode_step. unfold bind at 1. rewrite Hstep, Hplan.
  by rewrite (run_plan_stop pre post t chk e).
Qed.

(** C9 (amended). A [/control] request whose [quick_timer] or
    [time_out_timer] has fewer than two elements never succeeds and
    never writes the timer: the handler indexes the list without a length
    check.  When the fields before the timer are accepted and written,
    the handler raises an [IndexError] if the list is empty or its only
    element is an hour within 0 to 9, and that [IndexError] is surfaced
    as a 500; if the only element is outside 0 to 9 the hour test fails
    first, element 1 is not indexed, and the handler raises the timer's
    validation error instead.  In [/program] the clocks check the length
    first: a short list there raises the field's validation error, never
    an [IndexError]. *)
Theorem short_timer_response `{Driver D}
    (c : PumpControl.t) (s : session D) (l : list Z) :
  (length l < 2)%nat ->
  PumpControl.quick_timer c = Some l \/ PumpControl.time_out_timer c = Some l ->
  (forall r, (control_pump c s).1 <> Ret r)
  /\ (exists ws,
        issued (control_pump c s).2 = issued s ++ ws
        /\ (PumpControl.quick_timer c = Some l ->
            Forall (fun w => w.1 <> Attr "quick_timer") ws)
        /\ (PumpControl.time_out_timer c = Some l ->
            Forall (fun w => w.1 <> Attr "time_out_timer") ws))
  /\ (PumpControl.quick_timer c = Some l ->
      Forall passes (take 12 (plan c)) ->
      delivered (writes_of (take 12 (plan c))) (dev s) ->
      control_pump_body c s
      = (Raise match l with
               | [] => IndexError
               | h :: _ =>
                   if between 0 h 9 then IndexError
                   else HTTPException 400
                          (Text "Quick timer hours 0-9, minutes 0-59")
               end,
         Session (send (writes_of (take 12 (plan c))) (dev s))
                 (issued s ++ writes_of (take 12 (plan c))))
      /\ (match l with [] => True | h :: _ => 0 <= h <= 9 end ->
          control_pump c s
          = (Raise (HTTPException 500 (Str IndexError)),
             Session (send (writes_of (take 12 (plan c))) (dev s))
                     (issued s ++ writes_of (take 12 (plan c))))))
  /\ (PumpControl.time_out_timer c = Some l ->
      Forall passes (take 22 (plan c)) ->
      delivered (writes_of (take 22 (plan c))) (dev s) ->
      control_pump_body c s
      = (Raise match l with
               | [] => IndexError
               | h :: _ =>
                   if between 0 h 9 then IndexError
                   else HTTPException 400
                          (Text "Time out timer hours 0-9, minutes 0-59")
               end,
         Session (send (writes_of (take 22 (plan c))) (dev s))
                 (issued s ++ writes_of (take 22 (plan c))))
      /\ (match l with [] => True | h :: _ => 0 <= h <= 9 end ->
          control_pump c s
          = (Raise (HTTPException 500 (Str IndexError)),
             Session (send (writes_of (take 22 (plan c))) (dev s))
                     (issued s ++ writes_of (take 22 (plan c))))))
  /\ (forall (p : ProgramControl.t) v s1 pre t detail post,
        1 <= ProgramControl.program_id p <= 8 ->
        readField (Attr "mode") (dev s) = Done v ->
        truthy v = false ->
        mode_step p s = (Ret tt, s1) ->
        program_plan p = pre ++ (t, clock detail (Some l)) :: post ->
        Forall passes pre -> delivered (writes_of pre) (dev s1) ->
        control_program_body p s
        = (Raise (HTTPException 400 (Text detail)),
           Session (send (writes_of pre) (dev s1))
                   (issued s1 ++ writes_of pre))).
Proof.
  intros Hl Hc.
  assert (PumpControl.quick_timer c = Some l ->
          (Attr "quick_timer",
           timer "Quick timer hours 0-9, minutes 0-59" (Some l)) ∈ plan c)
    as Hqin.
  { intros <-. unfold plan. apply list_elem_of_In. simpl. tauto. }
  assert (PumpControl.time_out_timer c = Some l ->
          (Attr "time_out_timer",
           timer "Time out timer hours 0-9, minutes 0-59" (Some l)) ∈ plan c)
    as Htin.
  { intros <-. unfold plan. apply list_elem_of_In. simpl. tauto. }
  assert (forall detail h rest,
            l = h :: rest -> 0 <= h <= 9 ->
            (if between 0 h 9 then IndexError
             else HTTPException 400 (Text detail)) = IndexError) as Hhour.
  { intros detail h rest _ Hh.
    assert (between 0 h 9 = true) as -> by (unfold between; lia). done. }
  split; [|split; [|split; [|split]]].
  - assert (exists e, (control_pump_body c s).1 = Raise e) as [e He].
    { rewrite control_pump_body_plan. apply run_plan_raises.
      apply Exists_exists.
      destruct Hc as [Hq | Ht].
      - eexists. split; [exact (Hqin Hq)|].
        eapply raised_not_passes. by apply timer_short.
      - eexists. split; [exact (Htin Ht)|].
        eapply raised_not_passes. by apply timer_short. }
    intros r. unfold control_pump, except_Exception.
    destruct (control_pump_body c s) as [[a|e'] s']; simpl in *;
      [discriminate He | discriminate].
  - destruct Hc as [Hq | Ht].
    + destruct (control_pump_not_written c s _ _ _ (Hqin Hq)
                  (timer_short _ l Hl)) as (ws & Hiss & Hws).
      exists ws. split; [done|]. split; [done|].
      intros Ht.
      destruct (control_pump_not_written c s _ _ _ (Htin Ht)
                  (timer_short _ l Hl)) as (ws' & Hiss' & Hws').
      rewrite Hiss in Hiss'. by apply app_inv_head in Hiss' as ->.
    + destruct (control_pump_not_written c s _ _ _ (Htin Ht)
                  (timer_short _ l Hl)) as (ws & Hiss & Hws).
      exists ws. split; [done|]. split; [|done].
      intros Hq.
      destruct (control_pump_not_written c s _ _ _ (Hqin Hq)
                  (timer_short _ l Hl)) as (ws' & Hiss' & Hws').
      rewrite Hiss in Hiss'. by apply app_inv_head in Hiss' as ->.
  - intros Hq Hpre Hd.
    assert (plan c
            = take 12 (plan c)
              ++ (Attr "quick_timer",
                  timer "Quick timer hours 0-9, minutes 0-59" (Some l))
              :: drop 13 (plan c)) as Hplan.
    { rewrite <- Hq. reflexivity. }
    split.
    + apply (control_pump_body_stop c s _ _ _ _ _ Hplan); try done.
      by apply timer_short.
    + intros Hh.
      apply (control_pump_stop c s _ _ _ _ _ Hplan); try done.
      rewrite timer_short by done. f_equal.
      destruct l as [|h rest]; [done|]. by apply (Hhour _ h rest).
  - intros Ht Hpre Hd.
    assert (plan c
            = take 22 (plan c)
              ++ (Attr "time_out_timer",
                  timer "Time out timer hours 0-9, minutes 0-59" (Some l))
              :: drop 23 (plan c)) as Hplan.
    { rewrite <- Ht. reflexivity. }
    split.
    + apply (control_pump_body_stop c s _ _ _ _ _ Hplan); try done.
      by apply timer_short.
    + intros Hh.
      apply (control_pump_stop c s _ _ _ _ _ Hplan); try done.
      rewrite timer_short by done. f_equal.
      destruct l as [|h rest]; [done|]. by apply (Hhour _ h rest).
  - intros p v s1 pre t detail post Hid Hmode Hv Hstep Hplan Hpre Hd.
    apply (control_program_body_stop p s s1 v pre t
             (clock detail (Some l)) _ post); try done.
    by rewrite clock_short.
Qed.

Lemma short_timer_response_witness :
  control_pump (only_quick_timer []) (start idle_pump)
  = (Raise (HTTPException 500 (Str IndexError)), start idle_pump)
  /\ (forall r,
        (control_pump (only_quick_timer []) (start idle_pump)).1 <> Ret r).
Proof.
  assert (length ([] : list Z) < 2)%nat as Hl by (simpl; lia).
  destruct (short_timer_response (only_quick_timer []) (start idle_pump) []
              Hl (or_introl eq_refl)) as (Hnever & _ & Hq & _).
  split; [|exact Hnever].
  assert (Forall passes (take 12 (plan (only_quick_timer [])))) as Hpre
    by repeat constructor.
  assert (delivered (writes_of (take 12 (plan (only_quick_timer []))))
            (dev (start idle_pump))) as Hd
    by (apply sim_delivered; reflexivity).
  exact (proj2 (Hq eq_refl Hpre Hd) I).
Defined.

(** A one-element [quick_timer] whose element is not an hour within 0 to
    9 never reaches the second index: the request ends in the timer's 400
    (surfaced as a 500), not in an [IndexError]. *)
Lemma short_timer_without_IndexError :
  (length [10] < 2)%nat
  /\ PumpControl.quick_timer (only_quick_timer [10]) = Some [10]
  /\ (control_pump (only_quick_timer [10]) (start idle_pump)).1
     = Raise (HTTPException 500
                (Str (HTTPException 400
                        (Text "Quick timer hours 0-9, minutes 0-59"))))
  /\ (control_pump (only_quick_timer [10]) (start idle_pump)).1
     <> Raise (HTTPException 500 (Str IndexError)).
Proof.
  split; [simpl; lia|]. split; [reflexivity|].
  split; [reflexivity | discriminate].
Qed.

(** ** [GET /status] *)

Lemma eq_int_run (st : gmap string value) :
  eq_int (default (VInt 0) (st !! "run")) 0x0A = true
  <-> st !! "run" = Some (VInt 0x0A).
Proof.
  destruct (st !! "run") as [[n|b|l]|]; simpl.
  - split; [intros Hn; f_equal; f_equal; lia | by intros [= ->]].
  - destruct b; simpl; split; intros; discriminate.
  - split; intros; discriminate.
  - split; intros; discriminate.
Qed.

(** C5. [GET /status] reports [state] true exactly when the run register
    of the status read is [0x0A]; [speed], [watts] and [time] are the
    [rpm], [watts] and [time] registers.  With well-typed registers the
    handler does return. *)
Theorem get_status_run_code `{Driver D} (PUMP_MODES : list (string * Z))
    (s : session D) (st : gmap string value) :
  readStatus (dev s) = Done st ->
  (forall r s', get_status PUMP_MODES s = (Ret r, s') ->
     (StatusResponse.state r = true <-> st !! "run" = Some (VInt 0x0A))
     /\ (StatusResponse.state r = false <-> st !! "run" <> Some (VInt 0x0A))
     /\ StatusResponse.speed r = int_of (default (VInt 0) (st !! "rpm"))
     /\ StatusResponse.watts r = int_of (default (VInt 0) (st !! "watts"))
     /\ VList (StatusResponse.time r)
        = match default (VList [0; 0]) (st !! "time") with
          | VList l => VList (take 2 l)
          | v => v
          end)
  /\ (status_typed st = true ->
      exists r, get_status PUMP_MODES s = (Ret r, s)).
Proof.
  intros Hst. split.
  - intros r s' Hr.
    unfold get_status, except_Exception, get_status_body in Hr.
    unfold bind at 1 in Hr. unfold pump_status in Hr. rewrite Hst in Hr.
    unfold inverse_get, bind, as_int, subscript, getitem, ret, raise in Hr.
    destruct (default (VInt 0) (st !! "mode")) as [k|b|?]; try discriminate;
    (destruct (default (VList [0; 0]) (st !! "time")) as [?|?|l];
       try discriminate;
     destruct l as [|h [|m l]]; try discriminate; simpl in Hr;
     destruct (default (VInt 0) (st !! "rpm")) as [?|?|?]; try discriminate;
     destruct (default (VInt 0) (st !! "watts")) as [?|?|?];
       try discriminate;
     injection Hr as <- <-; simpl;
     (split; [apply eq_int_run|]);
     (split; [rewrite <- eq_int_run;
              destruct (eq_int _ _); split; congruence|]);
     repeat split; reflexivity).
  - intros Hty. unfold status_typed in Hty.
    apply andb_true_iff in Hty as [Hty Htime].
    apply andb_true_iff in Hty as [Hty Hmode].
    apply andb_true_iff in Hty as [Hrpm Hwatts].
    unfold get_status, except_Exception, get_status_body.
    unfold bind at 1. unfold pump_status. rewrite Hst.
    unfold inverse_get, bind, as_int, subscript, getitem, ret, raise.
    destruct (default (VInt 0) (st !! "mode")) as [k|b|?]; try discriminate;
    (destruct (default (VList [0; 0]) (st !! "time")) as [?|?|l];
       try discriminate;
     destruct l as [|h [|m l]]; try discriminate; simpl;
     destruct (default (VInt 0) (st !! "rpm")) as [?|?|?]; try discriminate;
     destruct (default (VInt 0) (st !! "watts")) as [?|?|?];
       try discriminate;
     eexists; reflexivity).
Qed.

Lemma get_status_run_code_witness :
  (exists r, get_status [] (start running_pump) = (Ret r, start running_pump)
             /\ StatusResponse.state r = true
             /\ StatusResponse.speed r = 2400)
  /\ (exists r, get_status [] (start idle_pump) = (Ret r, start idle_pump)
                /\ StatusResponse.state r = false).
Proof.
  assert (readStatus (dev (start running_pump))
          = Done (Sim.status running_pump)) as Hst by reflexivity.
  assert (readStatus (dev (start idle_pump))
          = Done (Sim.status idle_pump)) as Hst' by reflexivity.
  destruct (get_status_run_code [] (start running_pump) _ Hst)
    as [Hrun Hret].
  destruct (get_status_run_code [] (start idle_pump) _ Hst')
    as [Hrun' Hret'].
  split.
  - destruct (Hret eq_refl) as [r Hr]. exists r. split; [exact Hr|].
    destruct (Hrun r _ Hr) as (Hstate & _ & Hspeed & _).
    split; [apply Hstate; reflexivity | rewrite Hspeed; reflexivity].
  - destruct (Hret' eq_refl) as [r Hr]. exists r. split; [exact Hr|].
    destruct (Hrun' r _ Hr) as (_ & Hstate & _).
    apply Hstate. discriminate.
Defined.

(** ** Reads leave the session alone *)

Lemma bind_Ret {D A B} (m : M D A) (k : A -> M D B) s a s' :
  m s = (Ret a, s') -> bind m k s = k a s'.
Proof. unfold bind. by intros ->. Qed.

Lemma bind_Raise {D A B} (m : M D A) (k : A -> M D B) s e s' :
  m s = (Raise e, s') -> bind m k s = (Raise e, s').
Proof. unfold bind. by intros ->. Qed.

Lemma bind_Ret_inv {D A B} (m : M D A) (k : A -> M D B) s b s' :
  bind m k s = (Ret b, s') ->
  exists a s1, m s = (Ret a, s1) /\ k a s1 = (Ret b, s').
Proof.
  unfold bind. destruct (m s) as [[a|e] s1]; [eauto | discriminate].
Qed.

Lemma read_only_ret {D A} (a : A) : read_only (ret a : M D A).
Proof. by intros s. Qed.

Lemma read_only_raise {D A} e : read_only (raise e : M D A).
Proof. by intros s. Qed.

Lemma read_only_bind {D A B} (m : M D A) (k : A -> M D B) :
  read_only m -> (forall a, read_only (k a)) -> read_only (bind m k).
Proof.
  intros Hm Hk s. unfold bind. specialize (Hm s).
  destruct (m s) as [[a|e] s1]; simpl in *; subst; [apply Hk | done].
Qed.

Lemma read_only_pump_get `{Driver D} t : read_only (pump_get t).
Proof. intros s. unfold pump_get. by destruct (readField t (dev s)). Qed.

Lemma read_only_as_int {D} bad v : read_only (as_int bad v : M D Z).
Proof. intros s. by destruct v. Qed.

Lemma read_only_getitem {D} l i : read_only (getitem l i : M D Z).
Proof. intros s. unfold getitem. by destruct (l !! i). Qed.

Lemma read_only_subscript {D} v i : read_only (subscript v i : M D Z).
Proof. destruct v; simpl; auto using read_only_raise, read_only_getitem. Qed.

Lemma read_only_list_index {D A} (l : list A) i :
  read_only (list_index l i : M D A).
Proof.
  intros s. unfold list_index.
  destruct (_ && _); [|done]. by destruct (l !! _).
Qed.

Lemma read_only_for_each {D A B} (f : A -> M D B) xs :
  (forall x, read_only (f x)) -> read_only (for_each f xs).
Proof.
  intros Hf. induction xs as [|x xs IH]; simpl; [apply read_only_ret|].
  apply read_only_bind; [apply Hf|]. intros y.
  apply read_only_bind; [apply IH|]. intros ys. apply read_only_ret.
Qed.

Lemma read_only_program_summary `{Driver D} i :
  read_only (program_summary i).
Proof.
  unfold program_summary.
  repeat (first [ apply read_only_ret | apply read_only_pump_get
                | apply read_only_as_int | apply read_only_list_index
                | apply read_only_bind; [|intros ?] ]).
Qed.

(** ** [GET /config] and a disabled program *)

Lemma program_summary_disabled `{Driver D} i (s : session D) :
  readField (ProgAttr i "mode") (dev s) = Done (VInt 3) ->
  exists e, (program_summary i s).1 = Raise e.
Proof.
  intros Hmode. unfold program_summary.
  unfold bind at 1. unfold pump_get at 1.
  destruct (readField (ProgAttr i "rpm") (dev s)) as [rpm|text];
    [|by eauto].
  unfold bind at 1. unfold pump_get at 1. rewrite Hmode.
  by eauto.
Qed.

Lemma for_each_raises {D A B} (f : A -> M D B) xs i (s : session D) :
  (forall x, read_only (f x)) ->
  i ∈ xs ->
  (exists e, (f i s).1 = Raise e) ->
  exists e, (for_each f xs s).1 = Raise e.
Proof.
  intros Hf Hin Hi. induction xs as [|x xs IH]; [by inversion Hin|].
  simpl. unfold bind at 1.
  pose proof (Hf x s) as Hx.
  destruct (f x s) as [[y|e] s1] eqn:Hfx; simpl in Hx; subst s1;
    [|by eauto].
  apply elem_of_cons in Hin as [-> | Hin].
  - destruct Hi as [e He]. rewrite Hfx in He. discriminate.
  - destruct (IH Hin) as [e He]. unfold bind.
    destruct (for_each f xs s) as [[ys|e'] s2]; simpl in *;
      [discriminate | by eauto].
Qed.

Lemma get_config_disabled `{Driver D} (WEEKDAYS : list (string * Z))
    (s : session D) (i : Z) :
  i ∈ [1; 2; 3; 4] ->
  readField (ProgAttr i "mode") (dev s) = Done (VInt 3) ->
  status_code_of (get_config WEEKDAYS s).1 = 500.
Proof.
  intros Hi Hmode.
  destruct (for_each_raises program_summary [1; 2; 3; 4] i s
              read_only_program_summary Hi
              (program_summary_disabled i s Hmode)) as [e He].
  unfold get_config, except_Exception, get_config_body. unfold bind at 1.
  destruct (for_each program_summary [1; 2; 3; 4] s) as [[ys|e'] s1];
    simpl in *; [discriminate | reflexivity].
Qed.

(** ** The simulated pump under writes *)

Lemma sim_send_online (ws : list (target * value)) (d : Sim.t) :
  Sim.online (send ws d) = Sim.online d.
Proof.
  revert d. induction ws as [|[t v] ws IH]; intros d; simpl; [done|].
  rewrite IH. by destruct (Sim.online d) eqn:Hon.
Qed.

Lemma sim_send_other (ws : list (target * value)) (d : Sim.t) x :
  x ∉ ws.*1 -> Sim.regs (send ws d) x = Sim.regs d x.
Proof.
  revert d. induction ws as [|[t v] ws IH]; intros d Hx; simpl; [done|].
  simpl in Hx. apply not_elem_of_cons in Hx as [Hne Hx].
  rewrite IH by done. destruct (Sim.online d); simpl; [|done].
  by rewrite decide_False.
Qed.

Lemma sim_send_present (ws : list (target * value)) (d : Sim.t) x :
  is_present (Sim.regs d x) = true ->
  is_present (Sim.regs (send ws d) x) = true.
Proof.
  revert d. induction ws as [|[t v] ws IH]; intros d Hx; simpl; [done|].
  apply IH. destruct (Sim.online d); simpl; [|done].
  by destruct (decide (x = t)).
Qed.

Lemma sim_send_written (ws ws' : list (target * value)) (d : Sim.t) x v :
  Sim.online d = true -> x ∉ ws'.*1 ->
  Sim.regs (send (ws ++ (x, v) :: ws') d) x = Some v.
Proof.
  intros Hon Hx. revert d Hon.
  induction ws as [|[t u] ws IH]; intros d Hon; simpl.
  - rewrite sim_send_other by done. rewrite Hon; simpl.
    by rewrite decide_True.
  - apply IH. rewrite Hon. simpl. done.
Qed.

Lemma sim_pump_get (d : Sim.t) x v (s : session Sim.t) :
  dev s = d -> Sim.online d = true -> Sim.regs d x = Some v ->
  pump_get x s = (Ret v, s).
Proof.
  intros <- Hon Hx. unfold pump_get; simpl. by rewrite Hon, Hx.
Qed.

Lemma writes_of_app (p q : list (target * check)) :
  writes_of (p ++ q) = writes_of p ++ writes_of q.
Proof.
  induction p as [|[t [|v| |]] p IH]; simpl; by rewrite ?IH.
Qed.

Lemma control_program_guards `{Driver D} (c : ProgramControl.t)
    (s : session D) r s' :
  control_program_body c s = (Ret r, s') ->
  1 <= ProgramControl.program_id c <= 8
  /\ exists v, readField (Attr "mode") (dev s) = Done v /\ truthy v = false.
Proof.
  unfold control_program_body, bind, pump_get. intros Hr.
  destruct (between 1 (ProgramControl.program_id c) 8) eqn:Hb;
    [|discriminate].
  simpl in Hr.
  destruct (readField (Attr "mode") (dev s)) as [v|] eqn:Hv; [|discriminate].
  simpl in Hr. rewrite Hv in Hr. simpl in Hr.
  destruct (truthy v) eqn:Ht; [discriminate|].
  split; [unfold between in Hb; lia|]. by exists v.
Qed.

Lemma program_plan_targets (c : ProgramControl.t) :
  ProgAttr (ProgramControl.program_id c) "mode" ∉ (program_plan c).*1.
Proof.
  intros Hin. apply list_elem_of_In in Hin. simpl in Hin.
  intuition discriminate.
Qed.

Lemma sim_readField (d : Sim.t) x v :
  Sim.online d = true -> Sim.regs d x = Some v -> readField x d = Done v.
Proof. intros Hon Hx. simpl. by rewrite Hon, Hx. Qed.

(** C10 (amended). [GET /config] answers 500 whenever one of programs 1
    to 4 has mode 3: its label list has three entries only.  [POST /program]
    accepts mode [DISABLED] and stores it as 3, so on the register pump a
    successful [DISABLED] edit of one of programs 1 to 4 leaves the mode
    register at 3 and [/config] failing. *)
Theorem disabled_program_breaks_config :
  (forall `{Driver D} (WEEKDAYS : list (string * Z)) (s : session D) (i : Z),
     i ∈ [1; 2; 3; 4] ->
     readField (ProgAttr i "mode") (dev s) = Done (VInt 3) ->
     status_code_of (get_config WEEKDAYS s).1 = 500)
  /\ (forall (WEEKDAYS : list (string * Z)) (d d' : Sim.t)
        (c : ProgramControl.t) tr,
        1 <= ProgramControl.program_id c <= 4 ->
        ProgramControl.mode c = Some "DISABLED" ->
        control_program c (start d) = (Ret success, Session d' tr) ->
        (ProgAttr (ProgramControl.program_id c) "mode", VInt 3) ∈ tr
        /\ Sim.regs d' (ProgAttr (ProgramControl.program_id c) "mode")
           = Some (VInt 3)
        /\ status_code_of (get_config WEEKDAYS (start d')).1 = 500).
Proof.
  split; [intros; by eapply get_config_disabled|].
  intros WEEKDAYS d d' c tr Hid Hmode Hrun.
  unfold control_program, except_Exception in Hrun.
  destruct (control_program_body c (start d)) as [[r|e] s'] eqn:Hbody;
    [|discriminate].
  injection Hrun as -> ->.
  pose proof (control_program_guards _ _ _ _ Hbody) as (Hid8 & v & Hv & Hidle).
  rewrite (control_program_body_idle c (start d) v) in Hbody by done.
  unfold program_fields in Hbody. rewrite Hmode in Hbody.
  apply bind_Ret_inv in Hbody as (u1 & s1 & Hset & Htail).
  simpl in Hset.
  change (mode_map !! "DISABLED") with (Some 3) in Hset.
  apply bind_Ret_inv in Hset as (u2 & s2 & Hget & Hset).
  pose proof (read_only_pump_get
                (ProgAttr (ProgramControl.program_id c) "mode") (start d))
    as Hro.
  rewrite Hget in Hro. simpl in Hro. subst s2.
  unfold pump_set in Hset. simpl in Hset.
  destruct (Sim.online d) eqn:Hon; [|discriminate].
  simplify_eq.
  apply run_plan_Ret in Htail as (_ & _ & Hk).
  unfold ret in Hk. cbn [dev issued] in Hk. simplify_eq.
  assert (Sim.regs
            (send (writes_of (program_plan c))
               (Sim.store (ProgAttr (ProgramControl.program_id c) "mode")
                  (VInt 3) d))
            (ProgAttr (ProgramControl.program_id c) "mode")
          = Some (VInt 3)) as Hreg.
  { rewrite sim_send_other.
    - simpl. by rewrite decide_True.
    - intros Hin.
      pose proof (writes_of_targets (program_plan c)) as Hall.
      rewrite Forall_forall in Hall.
      apply list_elem_of_fmap in Hin as (w & Heq & Hw).
      apply (program_plan_targets c). rewrite Heq. by apply Hall. }
  split; [|split].
  - apply elem_of_cons. by left.
  - exact Hreg.
  - apply (get_config_disabled WEEKDAYS _ (ProgramControl.program_id c)).
    + assert (ProgramControl.program_id c = 1
              \/ ProgramControl.program_id c = 2
              \/ ProgramControl.program_id c = 3
              \/ ProgramControl.program_id c = 4) as Hcases by lia.
      apply list_elem_of_In. simpl. intuition.
    + apply sim_readField; [|exact Hreg].
      unfold start. cbn [dev]. by rewrite sim_send_online.
Qed.

Lemma disabled_program_breaks_config_witness :
  (exists d' tr,
     control_program (disable_program 2) (start idle_pump)
     = (Ret success, Session d' tr)
     /\ (ProgAttr 2 "mode", VInt 3) ∈ tr
     /\ status_code_of (get_config [] (start d')).1 = 500)
  /\ (get_config [] (start idle_pump)).1 <> Raise (HTTPException 500 (Str IndexError))
  /\ (get_config []
        (start (Sim.store (ProgAttr 2 "mode") (VInt 3) idle_pump))).1
     = Raise (HTTPException 500 (Str IndexError)).
Proof.
  split; [|split; [vm_compute; discriminate | vm_compute; reflexivity]].
  eexists _, _. split; [vm_compute; reflexivity|].
  assert (1 <= ProgramControl.program_id (disable_program 2) <= 4) as Hid.
  { simpl. lia. }
  destruct (proj2 disabled_program_breaks_config [] idle_pump _
              (disable_program 2) _ Hid eq_refl eq_refl) as (Hin & _ & Hst).
  split; [exact Hin | exact Hst].
Defined.

(** ** [GET /config] and the running program *)

Lemma read_attrs_keys `{Driver D} names (s : session D) l s' :
  read_attrs names s = (Ret l, s') -> l.*1 = names /\ s' = s.
Proof.
  revert s l s'. induction names as [|name names IH]; intros s l s' Hr;
    simpl in Hr.
  - unfold ret in Hr. by simplify_eq.
  - apply bind_Ret_inv in Hr as (v & s1 & Hv & Hr).
    apply bind_Ret_inv in Hr as (vs & s2 & Hvs & Hr).
    unfold ret in Hr. simplify_eq.
    apply IH in Hvs as [Hk ->].
    pose proof (read_only_pump_get (Attr name) s) as Hro.
    rewrite Hv in Hro. simpl in Hro. subst s1.
    split; [|done]. by rewrite fmap_cons, Hk.
Qed.

Lemma field_app_r key (l r : list (string * json)) :
  key ∉ l.*1 -> field key (l ++ r) = field key r.
Proof.
  induction l as [|[k v] l IH]; intros Hk; simpl; [done|].
  simpl in Hk. apply not_elem_of_cons in Hk as [Hne Hk].
  rewrite decide_False by done. by apply IH.
Qed.

(** What [/config] reports as [running_program] is the stored setting
    divided by 8. *)
Lemma get_config_running_program `{Driver D}
    (WEEKDAYS : list (string * Z)) (s : session D) reply s' :
  get_config WEEKDAYS s = (Ret reply, s') ->
  exists v, readField (Setting "RUNNING_PROGRAM") (dev s) = Done v
            /\ is_number v = true
            /\ field "running_program" reply = Some (JNum (int_of v / 8)).
Proof.
  unfold get_config, except_Exception. intros Hr.
  destruct (get_config_body WEEKDAYS s) as [[r|e] s0] eqn:Hbody;
    [|discriminate].
  simplify_eq. unfold get_config_body in Hbody.
  apply bind_Ret_inv in Hbody as (programs & s1 & Hprog & Hbody).
  pose proof (read_only_for_each program_summary [1; 2; 3; 4]
                read_only_program_summary s) as Hro.
  rewrite Hprog in Hro. simpl in Hro. subst s1.
  apply bind_Ret_inv in Hbody as (dt & s1 & Hdt & Hbody).
  pose proof (read_only_pump_get (Attr "dt") s) as Hro.
  rewrite Hdt in Hro. simpl in Hro. subst s1.
  apply bind_Ret_inv in Hbody as (run & s1 & Hrun & Hbody).
  pose proof (read_only_pump_get (Attr "run") s) as Hro.
  rewrite Hrun in Hro. simpl in Hro. subst s1.
  apply bind_Ret_inv in Hbody as (settings & s1 & Hset & Hbody).
  apply read_attrs_keys in Hset as [Hkeys ->].
  apply bind_Ret_inv in Hbody as (stored & s1 & Hstored & Hbody).
  pose proof (read_only_pump_get (Setting "RUNNING_PROGRAM") s) as Hro.
  rewrite Hstored in Hro. simpl in Hro. subst s1.
  apply bind_Ret_inv in Hbody as (k & s1 & Hk & Hbody).
  exists stored. split.
  { unfold pump_get in Hstored.
    destruct (readField (Setting "RUNNING_PROGRAM") (dev s));
      by simplify_eq. }
  assert (is_number stored = true /\ k = int_of stored) as [Hnum ->].
  { destruct stored; simpl in Hk; unfold ret, raise in Hk; by simplify_eq. }
  split; [done|].
  repeat (apply bind_Ret_inv in Hbody as (? & ? & _ & Hbody)).
  unfold ret in Hbody. simplify_eq.
  rewrite field_app_r.
  - reflexivity.
  - rewrite Hkeys. apply (bool_decide_unpack _). vm_compute. exact I.
Qed.

Lemma program_summary_returns (d : Sim.t) (i : Z) (s : session Sim.t) :
  dev s = d -> Sim.online d = true -> readable_program d i = true ->
  exists j, program_summary i s = (Ret j, s).
Proof.
  intros Hd Hon Hp. unfold readable_program in Hp.
  repeat (apply andb_true_iff in Hp as [Hp ?]).
  destruct (Sim.regs d (ProgAttr i "rpm")) as [rpm|] eqn:Hrpm;
    [|discriminate].
  destruct (Sim.regs d (ProgAttr i "mode")) as [mode|] eqn:Hmode;
    [|discriminate].
  destruct (Sim.regs d (ProgAttr i "schedule_start")) as [ss|] eqn:Hss;
    [|discriminate].
  destruct (Sim.regs d (ProgAttr i "schedule_end")) as [se|] eqn:Hse;
    [|discriminate].
  destruct (Sim.regs d (ProgAttr i "egg_timer")) as [et|] eqn:Het;
    [|discriminate].
  match goal with
  | Hm : is_number mode && _ = true |- _ =>
      apply andb_true_iff in Hm as [Hnum Hrange]
  end.
  unfold program_summary.
  rewrite (bind_Ret _ _ _ _ _ (sim_pump_get d _ rpm s Hd Hon Hrpm)).
  rewrite (bind_Ret _ _ _ _ _ (sim_pump_get d _ mode s Hd Hon Hmode)).
  assert (as_int TypeError mode s = (Ret (int_of mode), s)) as Hint.
  { by destruct mode. }
  rewrite (bind_Ret _ _ _ _ _ Hint).
  assert (exists label,
             list_index ["MANUAL"; "EGG_TIMER"; "SCHEDULE"] (int_of mode) s
             = (Ret label, s)) as [label Hlabel].
  { unfold between in Hrange.
    assert (int_of mode = -3 \/ int_of mode = -2 \/ int_of mode = -1
            \/ int_of mode = 0 \/ int_of mode = 1 \/ int_of mode = 2)
      as Hcases by lia.
    destruct Hcases as [-> | [-> | [-> | [-> | [-> | ->]]]]];
      eexists; reflexivity. }
  rewrite (bind_Ret _ _ _ _ _ Hlabel).
  rewrite (bind_Ret _ _ _ _ _ (sim_pump_get d _ ss s Hd Hon Hss)).
  rewrite (bind_Ret _ _ _ _ _ (sim_pump_get d _ se s Hd Hon Hse)).
  rewrite (bind_Ret _ _ _ _ _ (sim_pump_get d _ et s Hd Hon Het)).
  eexists. reflexivity.
Qed.

Lemma for_each_returns {D A B} (f : A -> M D B) xs (s : session D) :
  Forall (fun x => exists y, f x s = (Ret y, s)) xs ->
  exists ys, for_each f xs s = (Ret ys, s).
Proof.
  induction 1 as [|x xs [y Hy] _ [ys Hys]]; simpl; [by eexists|].
  rewrite (bind_Ret _ _ _ _ _ Hy), (bind_Ret _ _ _ _ _ Hys).
  by eexists.
Qed.

Lemma read_attrs_returns (d : Sim.t) names (s : session Sim.t) :
  dev s = d -> Sim.online d = true ->
  forallb (fun name => is_present (Sim.regs d (Attr name))) names = true ->
  exists l, read_attrs names s = (Ret l, s).
Proof.
  intros Hd Hon. induction names as [|name names IH]; simpl; intros Hall;
    [by eexists|].
  apply andb_true_iff in Hall as [Hname Hall].
  destruct (Sim.regs d (Attr name)) as [v|] eqn:Hv; [|discriminate].
  destruct (IH Hall) as [l Hl].
  rewrite (bind_Ret _ _ _ _ _ (sim_pump_get d _ v s Hd Hon Hv)).
  rewrite (bind_Ret _ _ _ _ _ Hl). by eexists.
Qed.

(** On a pump whose configuration is readable, [/config] returns. *)
Lemma get_config_returns (WEEKDAYS : list (string * Z)) (d : Sim.t) :
  config_readable d = true ->
  exists reply, get_config WEEKDAYS (start d) = (Ret reply, start d).
Proof.
  intros Hc. unfold config_readable in Hc.
  apply andb_true_iff in Hc as [Hc Hrp].
  apply andb_true_iff in Hc as [Hc Hattrs].
  apply andb_true_iff in Hc as [Hc Hdt].
  apply andb_true_iff in Hc as [Hon Hprogs].
  destruct (Sim.regs d (Attr "dt")) as [[| |dt]|] eqn:Hdtv; try discriminate.
  destruct (Sim.regs d (Setting "RUNNING_PROGRAM")) as [rp|] eqn:Hrpv;
    [|discriminate].
  change (forallb _ ("run" :: config_attrs)) with
    (is_present (Sim.regs d (Attr "run"))
     && forallb (fun name => is_present (Sim.regs d (Attr name)))
          config_attrs) in Hattrs.
  apply andb_true_iff in Hattrs as [Hrun Hattrs].
  destruct (Sim.regs d (Attr "run")) as [run|] eqn:Hrunv; [|discriminate].
  assert (exists ps, for_each program_summary [1; 2; 3; 4] (start d)
                     = (Ret ps, start d)) as [ps Hps].
  { apply for_each_returns. rewrite forallb_forall in Hprogs.
    apply Forall_forall. intros i Hi.
    apply (program_summary_returns d); [done | done |].
    apply Hprogs. by apply list_elem_of_In. }
  destruct (read_attrs_returns d config_attrs (start d) eq_refl Hon Hattrs)
    as [settings Hsettings].
  unfold get_config, except_Exception, get_config_body.
  rewrite (bind_Ret _ _ _ _ _ Hps).
  rewrite (bind_Ret _ _ _ _ _
             (sim_pump_get d _ _ (start d) eq_refl Hon Hdtv)).
  rewrite (bind_Ret _ _ _ _ _
             (sim_pump_get d _ _ (start d) eq_refl Hon Hrunv)).
  rewrite (bind_Ret _ _ _ _ _ Hsettings).
  rewrite (bind_Ret _ _ _ _ _
             (sim_pump_get d _ _ (start d) eq_refl Hon Hrpv)).
  assert (as_int TypeError rp (start d) = (Ret (int_of rp), start d))
    as Hint by (by destruct rp).
  rewrite (bind_Ret _ _ _ _ _ Hint).
  destruct dt as [|a0 [|a1 [|a2 [|a3 [|a4 [|a5 [|a6 dt]]]]]]];
    try discriminate.
  eexists. reflexivity.
Qed.

(** A [DISABLED] edit of program 5 succeeds and stores mode 3, and
    [/config], which reads programs 1 to 4 only, still answers 200. *)
Lemma disabled_program_outside_config :
  exists d' tr,
    control_program (disable_program 5) (start idle_pump)
    = (Ret success, Session d' tr)
    /\ (ProgAttr 5 "mode", VInt 3) ∈ tr
    /\ Sim.regs d' (ProgAttr 5 "mode") = Some (VInt 3)
    /\ forall WEEKDAYS : list (string * Z),
         status_code_of (get_config WEEKDAYS (start d')).1 = 200.
Proof.
  exists (Sim.store (ProgAttr 5 "mode") (VInt 3) idle_pump),
    [(ProgAttr 5 "mode", VInt 3)].
  split; [by vm_compute|]. split; [by left|]. split; [by vm_compute|].
  intros WEEKDAYS.
  assert (config_readable
            (Sim.store (ProgAttr 5 "mode") (VInt 3) idle_pump) = true)
    as Hreadable by (by vm_compute).
  by destruct (get_config_returns WEEKDAYS _ Hreadable) as [reply ->].
Qed.

Lemma sim_send_invariant (P : value -> bool) x
    (ws : list (target * value)) (d : Sim.t) :
  (forall v, (x, v) ∈ ws -> P v = true) ->
  match Sim.regs d x with Some v => P v | None => false end = true ->
  match Sim.regs (send ws d) x with Some v => P v | None => false end = true.
Proof.
  revert d. induction ws as [|[t u] ws IH]; intros d Hws Hd; simpl; [done|].
  apply IH.
  - intros v Hv. apply Hws. by right.
  - destruct (Sim.online d); simpl; [|done].
    destruct (decide (x = t)) as [->|]; [|done].
    apply Hws. by left.
Qed.

Lemma sim_delivered_online (ws : list (target * value)) (d : Sim.t) :
  ws <> [] -> delivered ws d -> Sim.online d = true.
Proof.
  destruct ws as [|[t v] ws]; [done|]. intros _ [Hw _]. simpl in Hw.
  by destruct (Sim.online d).
Qed.

Lemma field_order_programs i name : ProgAttr i name ∉ field_order.
Proof.
  intros Hin. apply list_elem_of_In in Hin. simpl in Hin.
  intuition discriminate.
Qed.

Lemma field_order_dt : Attr "dt" ∉ field_order.
Proof. apply (bool_decide_unpack _). vm_compute. exact I. Qed.

(** Writes to the fields of [/control] keep the configuration readable,
    as long as the running program is written as a number. *)
Lemma config_readable_send (ws : list (target * value)) (d : Sim.t) :
  Forall (fun w => w.1 ∈ field_order) ws ->
  (forall v, (Setting "RUNNING_PROGRAM", v) ∈ ws -> is_number v = true) ->
  config_readable d = true -> config_readable (send ws d) = true.
Proof.
  intros Hsub Hrp Hc.
  assert (forall x, x ∉ field_order ->
            Sim.regs (send ws d) x = Sim.regs d x) as Hsame.
  { intros x Hx. apply sim_send_other. intros Hin.
    apply list_elem_of_fmap in Hin as (w & Heq & Hw).
    rewrite Forall_forall in Hsub. apply Hx. rewrite Heq. by apply Hsub. }
  unfold config_readable in *.
  apply andb_true_iff in Hc as [Hc Hrpv].
  apply andb_true_iff in Hc as [Hc Hattrs].
  apply andb_true_iff in Hc as [Hc Hdt].
  apply andb_true_iff in Hc as [Hon Hprogs].
  rewrite sim_send_online, Hon.
  rewrite (Hsame _ field_order_dt), Hdt.
  rewrite (sim_send_invariant is_number _ ws d Hrp Hrpv).
  rewrite !andb_true_r, andb_true_l.
  apply andb_true_iff. split.
  - rewrite forallb_forall in Hprogs. apply forallb_forall. intros i Hi.
    rewrite <- (Hprogs i Hi). unfold readable_program.
    by rewrite !(Hsame _ (field_order_programs i _)).
  - rewrite forallb_forall in Hattrs. apply forallb_forall. intros name Hn.
    by apply sim_send_present, Hattrs.
Qed.

Lemma plan_running_program (c : PumpControl.t) :
  plan c
  = take 23 (plan c)
    ++ (Setting "RUNNING_PROGRAM",
        scaled "Running program must be between 1 and 4"
          (PumpControl.running_program c))
    :: drop 24 (plan c).
Proof. reflexivity. Qed.

Lemma plan_running_program_write (c : PumpControl.t) v :
  (Setting "RUNNING_PROGRAM", Accept v) ∈ plan c ->
  scaled "Running program must be between 1 and 4"
    (PumpControl.running_program c) = Accept v.
Proof.
  intros Hin. apply list_elem_of_In in Hin. unfold plan in Hin.
  simpl in Hin.
  repeat (destruct Hin as [Heq | Hin]; [by simplify_eq|]).
  destruct Hin.
Qed.

Lemma scaled_passes detail n :
  passes (Setting "RUNNING_PROGRAM", scaled detail (Some n)) ->
  1 <= n <= 4 /\ scaled detail (Some n) = Accept (VInt (n * 8)).
Proof.
  unfold passes, scaled; simpl. unfold between.
  destruct (_ && _) eqn:Hb; [|done]. intros _. split; [lia | done].
Qed.

Lemma control_pump_Ret `{Driver D} (c : PumpControl.t) (s s' : session D) r :
  control_pump c s = (Ret r, s') ->
  Forall passes (plan c)
  /\ delivered (writes_of (plan c)) (dev s)
  /\ dev s' = send (writes_of (plan c)) (dev s)
  /\ issued s' = issued s ++ writes_of (plan c).
Proof.
  unfold control_pump, except_Exception. intros Hr.
  destruct (control_pump_body c s) as [[r'|e] s0] eqn:Hbody; [|discriminate].
  rewrite control_pump_body_plan in Hbody.
  apply run_plan_Ret in Hbody as (Hpass & Hd & Hk).
  split; [done|]. split; [done|].
  unfold ret in Hk.
  assert (s0 = s') as <- by congruence.
  pose proof (f_equal snd Hk) as Hs0. cbn [snd] in Hs0. rewrite <- Hs0.
  by split.
Qed.

Lemma control_pump_running_program_write `{Driver D}
    (c : PumpControl.t) (s s' : session D) r n :
  PumpControl.running_program c = Some n ->
  control_pump c s = (Ret r, s') ->
  1 <= n <= 4
  /\ writes_of (plan c)
     = writes_of (take 23 (plan c))
       ++ (Setting "RUNNING_PROGRAM", VInt (n * 8))
       :: writes_of (drop 24 (plan c)).
Proof.
  intros Hn Hr. apply control_pump_Ret in Hr as (Hpass & _).
  assert (passes (Setting "RUNNING_PROGRAM",
                  scaled "Running program must be between 1 and 4"
                    (Some n))) as Hp.
  { rewrite Forall_forall in Hpass. apply Hpass.
    rewrite <- Hn. rewrite (plan_running_program c) at 1.
    apply elem_of_app. right. by left. }
  apply scaled_passes in Hp as [Hrange Hscaled].
  split; [done|].
  rewrite (plan_running_program c) at 1.
  rewrite writes_of_app, Hn, Hscaled. reflexivity.
Qed.

(** After writes that set the running program to [n] times 8 last, a
    readable pump reports [running_program = n]. *)
Lemma get_config_after_writes (WEEKDAYS : list (string * Z)) (d : Sim.t)
    (ws before after : list (target * value)) n :
  ws = before ++ (Setting "RUNNING_PROGRAM", VInt (n * 8)) :: after ->
  Setting "RUNNING_PROGRAM" ∉ after.*1 ->
  Forall (fun w => w.1 ∈ field_order) ws ->
  (forall v, (Setting "RUNNING_PROGRAM", v) ∈ ws -> is_number v = true) ->
  config_readable d = true ->
  delivered ws d ->
  exists reply,
    get_config WEEKDAYS (start (send ws d))
    = (Ret reply, start (send ws d))
    /\ field "running_program" reply = Some (JNum n).
Proof.
  intros Hws Hafter Hsub Hnum Hc Hd.
  assert (Sim.online d = true) as Hon.
  { apply (sim_delivered_online ws); [|done].
    rewrite Hws. by destruct before. }
  pose proof (config_readable_send ws d Hsub Hnum Hc) as Hc'.
  destruct (get_config_returns WEEKDAYS _ Hc') as [reply Hreply].
  exists reply. split; [done|].
  destruct (get_config_running_program WEEKDAYS _ _ _ Hreply)
    as (v & Hv & _ & Hf).
  assert (Sim.regs (send ws d) (Setting "RUNNING_PROGRAM")
          = Some (VInt (n * 8))) as Hreg.
  { rewrite Hws. by apply sim_send_written. }
  assert (Sim.online (send ws d) = true) as Hon'
    by (by rewrite sim_send_online).
  unfold start in Hv. cbn [dev] in Hv.
  rewrite (sim_readField _ _ _ Hon' Hreg) in Hv.
  injection Hv as <-. rewrite Hf. simpl. by rewrite Z.div_mul.
Qed.

(** C6. A successful [/control] that carries [running_program = n] has n
    within 1 to 4 and writes n times 8 to the [RUNNING_PROGRAM] setting;
    [/config] reports the stored setting divided by 8; so on the register
    pump, after such a request [/config] returns and reports
    [running_program = n]. *)
Theorem running_program_round_trip :
  (forall `{Driver D} (c : PumpControl.t) (s s' : session D) r n,
     PumpControl.running_program c = Some n ->
     control_pump c s = (Ret r, s') ->
     1 <= n <= 4
     /\ (Setting "RUNNING_PROGRAM", VInt (n * 8)) ∈ issued s')
  /\ (forall `{Driver D} (WEEKDAYS : list (string * Z)) (s s' : session D)
        reply,
        get_config WEEKDAYS s = (Ret reply, s') ->
        exists v,
          readField (Setting "RUNNING_PROGRAM") (dev s) = Done v
          /\ field "running_program" reply = Some (JNum (int_of v / 8)))
  /\ (forall (WEEKDAYS : list (string * Z)) (d d' : Sim.t)
        (c : PumpControl.t) n tr,
        PumpControl.running_program c = Some n ->
        config_readable d = true ->
        control_pump c (start d) = (Ret success, Session d' tr) ->
        exists reply,
          get_config WEEKDAYS (start d') = (Ret reply, start d')
          /\ field "running_program" reply = Some (JNum n)).
Proof.
  split; [|split].
  - intros D HD c s s' r n Hn Hr.
    destruct (control_pump_running_program_write c s s' r n Hn Hr)
      as [Hrange Hws].
    apply control_pump_Ret in Hr as (_ & _ & _ & Hiss).
    split; [done|]. rewrite Hiss, Hws.
    apply elem_of_app. right. apply elem_of_app. right. by left.
  - intros D HD WEEKDAYS s s' reply Hr.
    destruct (get_config_running_program WEEKDAYS s reply s' Hr)
      as (v & Hv & _ & Hf).
    by exists v.
  - intros WEEKDAYS d d' c n tr Hn Hc Hr.
    destruct (control_pump_running_program_write c _ _ _ n Hn Hr)
      as [Hrange Hws].
    apply control_pump_Ret in Hr as (_ & Hd & Hdev & _).
    unfold start in Hd, Hdev. cbn [dev] in Hd, Hdev. rewrite Hdev.
    apply (get_config_after_writes WEEKDAYS d (writes_of (plan c))
             (writes_of (take 23 (plan c)))
             (writes_of (drop 24 (plan c))) n); try done.
    + intros Hin. apply list_elem_of_fmap in Hin as (w & Heq & Hw).
      pose proof (writes_of_targets (drop 24 (plan c))) as Hall.
      rewrite Forall_forall in Hall. specialize (Hall w Hw).
      rewrite <- Heq in Hall. apply list_elem_of_In in Hall.
      simpl in Hall. intuition discriminate.
    + eapply Forall_impl; [apply writes_of_targets|].
      intros w Hw. by rewrite <- (plan_order c).
    + intros v Hv. apply writes_of_elem in Hv.
      apply plan_running_program_write in Hv.
      rewrite Hn in Hv. unfold scaled in Hv.
      destruct (between 1 n 4); [|discriminate Hv].
      by injection Hv as <-.
Qed.

Lemma running_program_round_trip_witness :
  config_readable idle_pump = true
  /\ exists d' tr reply,
       control_pump (Field.request Field.running_program 3) (start idle_pump)
       = (Ret success, Session d' tr)
       /\ (Setting "RUNNING_PROGRAM", VInt 24) ∈ tr
       /\ get_config [] (start d') = (Ret reply, start d')
       /\ field "running_program" reply = Some (JNum 3).
Proof.
  assert (config_readable idle_pump = true) as Hc by (vm_compute; reflexivity).
  split; [exact Hc|].
  destruct running_program_round_trip as (Hwrite & _ & Hread).
  eexists _, _.
  assert (control_pump (Field.request Field.running_program 3)
            (start idle_pump)
          = (Ret success,
             Session (Sim.store (Setting "RUNNING_PROGRAM") (VInt 24)
                        idle_pump)
                     [(Setting "RUNNING_PROGRAM", VInt 24)])) as Hrun.
  { vm_compute. reflexivity. }
  destruct (Hread [] idle_pump _ (Field.request Field.running_program 3) 3 _
              eq_refl Hc Hrun) as (reply & Hreply & Hfield).
  exists reply. split; [exact Hrun|].
  split; [exact (proj2 (Hwrite _ _ (Field.request Field.running_program 3)
                         _ _ _ 3 eq_refl Hrun))|].
  split; [exact Hreply | exact Hfield].
Defined.

(** * Further properties of the handlers *)

(** ** What [/control] sends to the pump *)

(** X1. Whatever the request and however the link behaves, the writes a
    [/control] request sends are a prefix, in order, of the writes its
    present and valid fields call for: an absent field is never written,
    nothing is written twice or out of order, and a request that succeeds
    has sent every one of them. *)
Theorem control_pump_trace `{Driver D} (c : PumpControl.t) (s : session D) :
  exists ws,
    ws `prefix_of` writes_of (plan c)
    /\ issued (control_pump c s).2 = issued s ++ ws
    /\ dev (control_pump c s).2 = send ws (dev s)
    /\ Forall (fun w => (w.1, Accept w.2) ∈ plan c) ws
    /\ ((control_pump c s).1 = Ret success -> ws = writes_of (plan c)).
Proof.
  destruct (run_plan_trace (plan c) (ret success) s (read_only_ret success))
    as (ws & Hpre & Hiss & Hdev & Hret).
  assert ((control_pump c s).2 = (run_plan (plan c) (ret success) s).2
          /\ ((control_pump c s).1 = Ret success ->
              (run_plan (plan c) (ret success) s).1 = Ret success))
    as [Hsnd Hfst].
  { unfold control_pump, except_Exception.
    rewrite control_pump_body_plan.
    destruct (run_plan (plan c) (ret success) s) as [[r|e] s1]; cbn [fst snd];
      split; try done. }
  exists ws. rewrite Hsnd.
  split; [done|]. split; [done|]. split; [done|]. split.
  - apply Forall_forall. intros [t v] Hw. apply writes_of_elem.
    destruct Hpre as [rest ->]. apply elem_of_app. by left.
  - intros Hr. apply (Hret success). by apply Hfst.
Qed.

Lemma control_pump_trace_witness :
  issued (control_pump speed_then_bad_ramp (start idle_pump)).2
  = [(Attr "trpm", VInt 2000)]
  /\ exists ws,
       ws `prefix_of` writes_of (plan speed_then_bad_ramp)
       /\ issued (control_pump speed_then_bad_ramp (start idle_pump)).2
          = [] ++ ws.
Proof.
  split; [reflexivity|].
  destruct (control_pump_trace speed_then_bad_ramp (start idle_pump))
    as (ws & Hpre & Hiss & _).
  exists ws. split; [exact Hpre | exact Hiss].
Defined.

Lemma run_plan_fault `{Driver D} {A} (pre post : list (target * check))
    t v text (k : M D A) (s : session D) :
  Forall passes pre -> delivered (writes_of pre) (dev s) ->
  (writeField t v (send (writes_of pre) (dev s))).2 = Some text ->
  run_plan (pre ++ (t, Accept v) :: post) k s
  = (Raise (DriverError text),
     Session (writeField t v (send (writes_of pre) (dev s))).1
             (issued s ++ writes_of pre ++ [(t, v)])).
Proof.
  intros Hp Hd Hw. rewrite run_plan_app, run_plan_pass by done.
  cbn [run_plan]. unfold bind, interp, pump_set. cbn [fst snd dev issued].
  destruct (writeField t v (send (writes_of pre) (dev s))) as [d' err].
  cbn [fst snd] in *. subst err. by rewrite <- app_assoc.
Qed.

(** X2. When the driver fails on a write, [/control] stops there: the
    reply is a 500 whose detail is the driver's error text, the earlier
    writes stay, and no later field is validated or written. *)
Theorem control_pump_link_failure `{Driver D}
    (c : PumpControl.t) (s : session D) pre t v post text :
  plan c = pre ++ (t, Accept v) :: post ->
  Forall passes pre ->
  delivered (writes_of pre) (dev s) ->
  (writeField t v (send (writes_of pre) (dev s))).2 = Some text ->
  control_pump c s
  = (Raise (HTTPException 500 (Str (DriverError text))),
     Session (writeField t v (send (writes_of pre) (dev s))).1
             (issued s ++ writes_of pre ++ [(t, v)])).
Proof.
  intros Hplan Hpre Hd Hw. unfold control_pump, except_Exception.
  rewrite control_pump_body_plan, Hplan.
  by rewrite (run_plan_fault pre post t v text).
Qed.

Lemma control_pump_link_failure_witness :
  control_pump speed_then_bad_ramp (start silent_pump)
  = (Raise (HTTPException 500 (Str (DriverError "no response from pump"))),
     Session silent_pump [(Attr "trpm", VInt 2000)]).
Proof.
  assert (plan speed_then_bad_ramp
          = take 1 (plan speed_then_bad_ramp)
            ++ (Attr "trpm", Accept (VInt 2000))
            :: drop 2 (plan speed_then_bad_ramp)) as Hplan by reflexivity.
  assert (Forall passes (take 1 (plan speed_then_bad_ramp))) as Hpre
    by repeat constructor.
  exact (control_pump_link_failure speed_then_bad_ramp (start silent_pump)
           _ _ _ _ "no response from pump" Hplan Hpre I eq_refl).
Defined.

(** X4. [state] is written first, before any other field is looked at: a
    request that carries [state] sends the run code ([0x0A] to start,
    [0x04] to stop) even when a later field is then rejected. *)
Theorem control_pump_state_first `{Driver D}
    (c : PumpControl.t) (s : session D) (b : bool) :
  PumpControl.state c = Some b ->
  exists rest,
    issued (control_pump c s).2
    = issued s ++ (Attr "run", VInt (if b then 0x0A else 0x04)) :: rest.
Proof.
  intros Hb.
  assert (exists rest,
             issued (run_plan (plan c) (ret success) s).2
             = issued s
               ++ (Attr "run", VInt (if b then 0x0A else 0x04)) :: rest)
    as [rest Hrest].
  { assert (plan c
            = (Attr "run", Accept (VInt (if b then 0x0A else 0x04)))
              :: drop 1 (plan c)) as ->.
    { change (plan c) with
        ((Attr "run", run_code (PumpControl.state c)) :: drop 1 (plan c)).
      by rewrite Hb. }
    cbn [run_plan]. unfold bind at 1. unfold interp at 1. cbn [fst snd].
    unfold pump_set.
    destruct (writeField _ _ (dev s)) as [d' [text|]].
    - exists []. reflexivity.
    - destruct (run_plan_trace (drop 1 (plan c)) (ret success)
                  (Session d'
                     (issued s
                      ++ [(Attr "run", VInt (if b then 0x0A else 0x04))]))
                  (read_only_ret success)) as (ws' & _ & Hiss' & _).
      exists ws'. rewrite Hiss'. cbn [issued]. by rewrite <- app_assoc. }
  exists rest. rewrite <- Hrest.
  unfold control_pump, except_Exception. rewrite control_pump_body_plan.
  by destruct (run_plan (plan c) (ret success) s) as [[r|e] s1].
Qed.

Lemma control_pump_state_first_witness :
  control_pump start_then_bad_speed (start idle_pump)
  = (Raise (HTTPException 500
              (Str (HTTPException 400
                      (Text "Speed must be between 450 and 3450 RPM")))),
     Session (Sim.store (Attr "run") (VInt 0x0A) idle_pump)
             [(Attr "run", VInt 0x0A)])
  /\ exists rest,
       issued (control_pump start_then_bad_speed (start idle_pump)).2
       = [] ++ (Attr "run", VInt 0x0A) :: rest.
Proof.
  split; [reflexivity|].
  exact (control_pump_state_first start_then_bad_speed (start idle_pump)
           true eq_refl).
Defined.

(** X3. Boolean fields are never rejected: a [/control] request that
    carries booleans only succeeds whenever the link delivers its writes,
    and sends exactly one write for each boolean present. *)
Theorem control_pump_flags_only `{Driver D}
    (c : PumpControl.t) (s : session D) :
  flags_only c ->
  delivered (writes_of (plan c)) (dev s) ->
  control_pump c s
  = (Ret success,
     Session (send (writes_of (plan c)) (dev s))
             (issued s ++ writes_of (plan c))).
Proof.
  intros Hflags Hd.
  assert (Forall passes (plan c)) as Hpass.
  { destruct c. unfold flags_only in Hflags. cbn in Hflags.
    destruct Hflags as
      (-> & -> & -> & -> & -> & -> & -> & -> & -> & -> & -> & -> & ->
       & -> & -> & -> & -> & ->).
    unfold plan. cbn [PumpControl.state PumpControl.speed PumpControl.ramp
      PumpControl.celsius PumpControl.fahrenheit PumpControl.contrast
      PumpControl.address PumpControl.id PumpControl.ampm
      PumpControl.max_rpm PumpControl.min_rpm PumpControl.quick_rpm
      PumpControl.quick_timer PumpControl.prime_enable
      PumpControl.prime_max_time PumpControl.prime_sensitivity
      PumpControl.prime_delay PumpControl.antifreeze_enable
      PumpControl.antifreeze_rpm PumpControl.antifreeze_temp
      PumpControl.svrs_restart_enable PumpControl.svrs_restart_timer
      PumpControl.time_out_timer PumpControl.running_program
      PumpControl.selected_program].
    repeat (constructor;
            [ unfold passes; cbn [snd];
              match goal with
              | |- context [run_code ?o] => by destruct o
              | |- context [flag ?o] => by destruct o
              | _ => exact I
              end
            |]).
    constructor. }
  unfold control_pump, except_Exception.
  rewrite control_pump_body_plan, run_plan_pass by done.
  reflexivity.
Qed.

Lemma control_pump_flags_only_witness :
  control_pump (all_flags true) (start idle_pump)
  = (Ret success,
     Session (send (writes_of (plan (all_flags true))) idle_pump)
             ([] ++ writes_of (plan (all_flags true))))
  /\ length (writes_of (plan (all_flags true))) = 7%nat.
Proof.
  assert (flags_only (all_flags true)) as Hflags.
  { unfold flags_only. cbn. repeat split. }
  assert (delivered (writes_of (plan (all_flags true)))
            (dev (start idle_pump))) as Hd.
  { apply sim_delivered. reflexivity. }
  split; [|reflexivity].
  exact (control_pump_flags_only (all_flags true) (start idle_pump) Hflags Hd).
Defined.

(** X5. [/control] checks only the first two elements of a timer and
    writes the list as it came: a [quick_timer] with more than two
    elements whose hour and minute are in range is accepted and sent
    whole.  [/program] does check the length: a [schedule_start] that does
    not have exactly two elements is rejected, nothing being written. *)
Theorem timer_length_is_not_checked `{Driver D} :
  (forall (d : D) (h m : Z) (rest : list Z),
     0 <= h <= 9 -> 0 <= m <= 59 ->
     (writeField (Attr "quick_timer") (VList (h :: m :: rest)) d).2 = None ->
     control_pump (only_quick_timer (h :: m :: rest)) (start d)
     = (Ret success,
        Session
          (writeField (Attr "quick_timer") (VList (h :: m :: rest)) d).1
          [(Attr "quick_timer", VList (h :: m :: rest))]))
  /\ (forall (s : session D) (i : Z) (v : value) (l : list Z),
        1 <= i <= 8 ->
        readField (Attr "mode") (dev s) = Done v -> truthy v = false ->
        length l <> 2%nat ->
        control_program (program_start i l) s
        = (Raise (HTTPException 500
                    (Str (HTTPException 400
                            (Text "Schedule start must have hours 0-23, minutes 0-59")))),
           s)).
Proof.
  split.
  - intros d h m rest Hh Hm Hw.
    assert (between 0 h 9 = true) as Hbh by (unfold between; lia).
    assert (between 0 m 59 = true) as Hbm by (unfold between; lia).
    unfold control_pump, except_Exception.
    rewrite control_pump_body_plan.
    assert (plan (only_quick_timer (h :: m :: rest))
            = take 12 (plan (only_quick_timer (h :: m :: rest)))
              ++ (Attr "quick_timer", Accept (VList (h :: m :: rest)))
              :: drop 13 (plan (only_quick_timer (h :: m :: rest)))) as ->.
    { change (plan (only_quick_timer (h :: m :: rest))) with
        (take 12 (plan (only_quick_timer (h :: m :: rest)))
         ++ (Attr "quick_timer",
             if between 0 h 9
             then if between 0 m 59 then Accept (VList (h :: m :: rest))
                  else Reject "Quick timer hours 0-9, minutes 0-59"
             else Reject "Quick timer hours 0-9, minutes 0-59")
         :: drop 13 (plan (only_quick_timer (h :: m :: rest)))) at 1.
      by rewrite Hbh, Hbm. }
    rewrite run_plan_pass.
    + reflexivity.
    + apply Forall_app. split; [repeat constructor|].
      constructor; [exact I | repeat constructor].
    + cbn. by split.
  - intros s i v l Hi Hmode Hidle Hlen.
    rewrite (control_program_stop (program_start i l) s v
               [(ProgAttr i "rpm", Absent)]
               (ProgAttr i "schedule_start")
               (clock "Schedule start must have hours 0-23, minutes 0-59"
                  (Some l))
               (HTTPException 400
                  (Text "Schedule start must have hours 0-23, minutes 0-59"))
               [(ProgAttr i "schedule_end", Absent);
                (ProgAttr i "egg_timer", Absent)]); try done.
    + destruct s. cbn. by rewrite app_nil_r.
    + unfold clock.
      destruct (Nat.eqb_spec (length l) 2) as [Heq|_]; [done|reflexivity].
    + repeat constructor.
Qed.

Lemma timer_length_is_not_checked_witness :
  control_pump (only_quick_timer long_quick_timer) (start idle_pump)
  = (Ret success,
     Session (Sim.store (Attr "quick_timer") (VList [1; 30; 99]) idle_pump)
             [(Attr "quick_timer", VList [1; 30; 99])])
  /\ control_program (program_start 1 long_quick_timer) (start idle_pump)
     = (Raise (HTTPException 500
                 (Str (HTTPException 400
                         (Text "Schedule start must have hours 0-23, minutes 0-59")))),
        start idle_pump)
  /\ control_program (program_start 1 [25]) (start idle_pump)
     = (Raise (HTTPException 500
                 (Str (HTTPException 400
                         (Text "Schedule start must have hours 0-23, minutes 0-59")))),
        start idle_pump).
Proof.
  assert (0 <= 1 <= 9) as Hh by lia.
  assert (0 <= 30 <= 59) as Hm by lia.
  assert ((writeField (Attr "quick_timer") (VList [1; 30; 99]) idle_pump).2
          = None) as Hw by reflexivity.
  destruct (@timer_length_is_not_checked Sim.t _) as [Hcontrol Hprogram].
  split; [exact (Hcontrol idle_pump 1 30 [99] Hh Hm Hw)|].
  assert (1 <= 1 <= 8) as Hi by lia.
  assert (readField (Attr "mode") (dev (start idle_pump)) = Done (VInt 0))
    as Hmode by reflexivity.
  split.
  - apply (Hprogram (start idle_pump) 1 (VInt 0) long_quick_timer Hi Hmode
             eq_refl).
    cbn. lia.
  - apply (Hprogram (start idle_pump) 1 (VInt 0) [25] Hi Hmode eq_refl).
    cbn. lia.
Defined.

(** ** [POST /run] *)

(** X7. [/run] sends exactly one write, of the boolean itself (where
    [/control] sends the run code [0x0A] or [0x04] to the same register),
    then reads [pump.run] back for its log line.  It reports "Pump started"
    or "Pump stopped" when both calls succeed; when the write went through
    and the read-back fails, the reply is a 500 although the pump has been
    switched. *)
Theorem run_pump_write_and_read_back `{Driver D}
    (state : bool) (s : session D) :
  let after := writeField (Attr "run") (VBool state) (dev s) in
  issued (run_pump state s).2 = issued s ++ [(Attr "run", VBool state)]
  /\ dev (run_pump state s).2 = after.1
  /\ (forall text,
        after.2 = Some text ->
        (run_pump state s).1
        = Raise (HTTPException 500 (Str (DriverError text))))
  /\ (forall text,
        after.2 = None -> readField (Attr "run") after.1 = Failed text ->
        (run_pump state s).1
        = Raise (HTTPException 500 (Str (DriverError text))))
  /\ (forall v,
        after.2 = None -> readField (Attr "run") after.1 = Done v ->
        (run_pump state s).1
        = Ret [("status", "success");
               ("message", if state then "Pump started" else "Pump stopped")])
  /\ issued (control_pump (only_state state) s).2
     = issued s ++ [(Attr "run", VInt (if state then 0x0A else 0x04))].
Proof.
  intros after. subst after.
  unfold run_pump, except_Exception, run_pump_body, bind, pump_set, pump_get.
  destruct (writeField (Attr "run") (VBool state) (dev s)) as [d' err]
    eqn:Hw.
  cbn [fst snd dev issued].
  split; [|split; [|split; [|split; [|split]]]].
  - destruct err; [done|]. cbn [dev]. by destruct (readField _ d').
  - destruct err; [done|]. cbn [dev]. by destruct (readField _ d').
  - intros text ->. reflexivity.
  - intros text -> Hr. cbn [dev]. by rewrite Hr.
  - intros v -> Hr. cbn [dev]. by rewrite Hr.
  - unfold control_pump, except_Exception, control_pump_body, bind, pump_set.
    cbn.
    by destruct (writeField (Attr "run")
                   (VInt (if state then 10 else 4)) (dev s)) as [d2 [text|]].
Qed.

Lemma run_pump_write_and_read_back_witness :
  run_pump false (start idle_pump)
  = (Ret [("status", "success"); ("message", "Pump stopped")],
     Session (Sim.store (Attr "run") (VBool false) idle_pump)
             [(Attr "run", VBool false)])
  /\ issued (run_pump false (start silent_pump)).2
     = [] ++ [(Attr "run", VBool false)]
  /\ (run_pump false (start silent_pump)).1
     = Raise (HTTPException 500 (Str (DriverError "no response from pump"))).
Proof.
  split; [reflexivity|].
  destruct (run_pump_write_and_read_back false (start silent_pump))
    as (Hiss & _ & Hfail & _).
  split; [exact Hiss|].
  assert ((writeField (Attr "run") (VBool false)
             (dev (start silent_pump))).2
          = Some "no response from pump") as Hw by reflexivity.
  exact (Hfail "no response from pump" Hw).
Defined.

(** ** [POST /program]: modes, order and the link *)


Lemma control_program_mode_step `{Driver D} (c : ProgramControl.t)
    (s : session D) v m :
  1 <= ProgramControl.program_id c <= 8 ->
  readField (Attr "mode") (dev s) = Done v ->
  truthy v = false ->
  ProgramControl.mode c = Some m ->
  control_program c s
  = except_Exception
      (match mode_map !! m with
       | Some code =>
           _ <- pump_get (ProgAttr (ProgramControl.program_id c) "mode") ;;
           pump_set (ProgAttr (ProgramControl.program_id c) "mode")
             (VInt code)
       | None =>
           raise (HTTPException 400
                    (Text "Mode must be MANUAL, EGG_TIMER, SCHEDULE, or DISABLED"))
       end ;;
       run_plan (program_plan c) (ret success)) s.
Proof.
  intros Hid Hmode Hv Hm. unfold control_program, except_Exception.
  rewrite (control_program_body_idle c s v) by done.
  unfold program_fields. rewrite Hm. reflexivity.
Qed.



(** X9. Before it writes a new mode, [/program] reads the program's
    current mode for a debug line.  When that read fails the edit is
    abandoned: nothing is written and the reply is a 500 with the driver's
    error text. *)
Theorem control_program_mode_log_read `{Driver D}
    (c : ProgramControl.t) (s : session D) (v : value) (m : string)
    (code : Z) (text : string) :
  1 <= ProgramControl.program_id c <= 8 ->
  readField (Attr "mode") (dev s) = Done v ->
  truthy v = false ->
  ProgramControl.mode c = Some m ->
  mode_map !! m = Some code ->
  readField (ProgAttr (ProgramControl.program_id c) "mode") (dev s)
  = Failed text ->
  control_program c s
  = (Raise (HTTPException 500 (Str (DriverError text))), s).
Proof.
  intros Hid Hmode Hv Hm Hcode Hread.
  rewrite (control_program_mode_step c s v m) by done.
  rewrite Hcode. unfold except_Exception, bind, pump_get.
  by rewrite Hread.
Qed.

Lemma control_program_mode_log_read_witness :
  control_program (program_mode 1 "MANUAL") (start blank_program_pump)
  = (Raise (HTTPException 500 (Str (DriverError "no response from pump"))),
     start blank_program_pump).
Proof.
  assert (1 <= ProgramControl.program_id (program_mode 1 "MANUAL") <= 8)
    as Hid by (cbn; lia).
  assert (readField (Attr "mode") (dev (start blank_program_pump))
          = Done (VInt 0)) as Hmode by reflexivity.
  assert (mode_map !! "MANUAL" = Some 0) as Hcode by (by vm_compute).
  assert (readField
            (ProgAttr (ProgramControl.program_id (program_mode 1 "MANUAL"))
               "mode")
            (dev (start blank_program_pump))
          = Failed "no response from pump") as Hread by reflexivity.
  exact (control_program_mode_log_read (program_mode 1 "MANUAL")
           (start blank_program_pump) (VInt 0) "MANUAL" 0
           "no response from pump" Hid Hmode eq_refl eq_refl Hcode Hread).
Defined.

(** X10. [/program] treats [mode] first, then [rpm], [schedule_start],
    [schedule_end] and [egg_timer].  When one of the later fields stops
    the request, the mode and the fields before the failing one have
    already been written and stay written. *)
Theorem control_program_no_rollback `{Driver D}
    (c : ProgramControl.t) (s : session D) (v old : value) (m : string)
    (code : Z) pre t chk e post :
  let slot := ProgAttr (ProgramControl.program_id c) "mode" in
  let d1 := (writeField slot (VInt code) (dev s)).1 in
  1 <= ProgramControl.program_id c <= 8 ->
  readField (Attr "mode") (dev s) = Done v ->
  truthy v = false ->
  ProgramControl.mode c = Some m ->
  mode_map !! m = Some code ->
  readField slot (dev s) = Done old ->
  (writeField slot (VInt code) (dev s)).2 = None ->
  program_plan c = pre ++ (t, chk) :: post ->
  raised chk = Some e ->
  Forall passes pre ->
  delivered (writes_of pre) d1 ->
  (program_plan c).*1
  = [ProgAttr (ProgramControl.program_id c) "rpm";
     ProgAttr (ProgramControl.program_id c) "schedule_start";
     ProgAttr (ProgramControl.program_id c) "schedule_end";
     ProgAttr (ProgramControl.program_id c) "egg_timer"]
  /\ control_program c s
     = (Raise (HTTPException 500 (Str e)),
        Session (send (writes_of pre) d1)
                (issued s ++ (slot, VInt code) :: writes_of pre)).
Proof.
  intros slot d1 Hid Hmode Hv Hm Hcode Hold Hw Hplan He Hpre Hd.
  split; [reflexivity|].
  rewrite (control_program_mode_step c s v m) by done.
  rewrite Hcode. unfold except_Exception.
  rewrite (bind_Ret _ _ s tt (Session d1 (issued s ++ [(slot, VInt code)]))).
  - rewrite Hplan.
    rewrite (run_plan_stop pre post t chk e) by done.
    cbn [dev issued]. by rewrite <- app_assoc.
  - unfold bind, pump_get. fold slot. rewrite Hold.
    by apply pump_set_delivered.
Qed.

Lemma control_program_no_rollback_witness :
  control_program (program_mode_rpm 1 "MANUAL" 10) (start idle_pump)
  = (Raise (HTTPException 500
              (Str (HTTPException 400
                      (Text "Program RPM must be between 450 and 3450")))),
     Session (Sim.store (ProgAttr 1 "mode") (VInt 0) idle_pump)
             [(ProgAttr 1 "mode", VInt 0)]).
Proof.
  assert (1 <= ProgramControl.program_id (program_mode_rpm 1 "MANUAL" 10)
          <= 8) as Hid by (cbn; lia).
  assert (readField (Attr "mode") (dev (start idle_pump)) = Done (VInt 0))
    as Hmode by reflexivity.
  assert (mode_map !! "MANUAL" = Some 0) as Hcode by (by vm_compute).
  assert (readField (ProgAttr 1 "mode") (dev (start idle_pump))
          = Done (VInt 0)) as Hold by reflexivity.
  assert ((writeField (ProgAttr 1 "mode") (VInt 0)
             (dev (start idle_pump))).2 = None) as Hw by reflexivity.
  assert (program_plan (program_mode_rpm 1 "MANUAL" 10)
          = [] ++ (ProgAttr 1 "rpm",
                   Reject "Program RPM must be between 450 and 3450")
               :: drop 1 (program_plan (program_mode_rpm 1 "MANUAL" 10)))
    as Hplan by reflexivity.
  exact (proj2 (control_program_no_rollback
                  (program_mode_rpm 1 "MANUAL" 10) (start idle_pump)
                  (VInt 0) (VInt 0) "MANUAL" 0 [] _ _ _ _
                  Hid Hmode eq_refl eq_refl Hcode Hold Hw Hplan eq_refl
                  (Forall_nil_2 _) I)).
Defined.

(** X11. A [/control] request with no field succeeds without a single
    driver call, so also when the pump does not answer.  A [/program]
    request with nothing to edit still reads [pump.mode]: it succeeds
    without writing when the pump answers and is stopped, and is a 500
    with the driver's text when the read fails. *)
Theorem empty_requests `{Driver D} (s : session D) :
  control_pump PumpControl.empty s = (Ret success, s)
  /\ (forall i v,
        1 <= i <= 8 ->
        readField (Attr "mode") (dev s) = Done v -> truthy v = false ->
        control_program (program_nothing i) s = (Ret success, s))
  /\ (forall c text,
        1 <= ProgramControl.program_id c <= 8 ->
        readField (Attr "mode") (dev s) = Failed text ->
        control_program c s
        = (Raise (HTTPException 500 (Str (DriverError text))), s)).
Proof.
  split; [reflexivity|]. split.
  - intros i v Hi Hmode Hv.
    unfold control_program, except_Exception.
    rewrite (control_program_body_idle _ s v) by done.
    reflexivity.
  - intros c text Hid Hmode.
    unfold control_program, except_Exception, control_program_body.
    assert (between 1 (ProgramControl.program_id c) 8 = true) as Hb.
    { unfold between. lia. }
    unfold bind at 1. rewrite Hb. cbn [negb].
    unfold ret at 1. unfold bind at 1. unfold pump_get at 1.
    by rewrite Hmode.
Qed.

Lemma empty_requests_witness :
  control_pump PumpControl.empty (start silent_pump)
  = (Ret success, start silent_pump)
  /\ control_program (program_nothing 1) (start silent_pump)
     = (Raise (HTTPException 500 (Str (DriverError "no response from pump"))),
        start silent_pump)
  /\ control_program (program_nothing 1) (start idle_pump)
     = (Ret success, start idle_pump).
Proof.
  destruct (empty_requests (start silent_pump)) as (Hempty & _ & Hdown).
  destruct (empty_requests (start idle_pump)) as (_ & Hidle & _).
  split; [exact Hempty|].
  assert (1 <= ProgramControl.program_id (program_nothing 1) <= 8) as Hid
    by (cbn; lia).
  assert (readField (Attr "mode") (dev (start silent_pump))
          = Failed "no response from pump") as Hmode by reflexivity.
  split; [exact (Hdown (program_nothing 1) _ Hid Hmode)|].
  assert (1 <= 1 <= 8) as Hi by lia.
  assert (readField (Attr "mode") (dev (start idle_pump)) = Done (VInt 0))
    as Hmode' by reflexivity.
  exact (Hidle 1 (VInt 0) Hi Hmode' eq_refl).
Defined.

(** ** Label tables read backwards *)

Lemma inverse_snoc (table : list (string * Z)) k v :
  inverse (table ++ [(k, v)]) = <[v := k]> (inverse table).
Proof. unfold inverse. by rewrite foldl_app. Qed.

Lemma inverse_None (table : list (string * Z)) v :
  v ∉ table.*2 -> inverse table !! v = None.
Proof.
  induction table as [|[k' v'] table IH] using rev_ind; intros Hv.
  - apply lookup_empty.
  - rewrite fmap_app in Hv. apply not_elem_of_app in Hv as [Hv Hne].
    rewrite inverse_snoc.
    rewrite lookup_insert_ne; [by apply IH|].
    intros ->. apply Hne. by left.
Qed.

Lemma inverse_Some (table : list (string * Z)) k v :
  NoDup table.*2 -> (k, v) ∈ table -> inverse table !! v = Some k.
Proof.
  induction table as [|[k' v'] table IH] using rev_ind; intros Hnd Hin.
  - by apply elem_of_nil in Hin.
  - rewrite fmap_app in Hnd. apply NoDup_app in Hnd as (Hnd & Hdisj & _).
    rewrite inverse_snoc.
    apply elem_of_app in Hin as [Hin | Hin].
    + rewrite lookup_insert_ne; [by apply IH|].
      intros ->. apply (Hdisj v); [|by left].
      apply list_elem_of_fmap. by exists (k, v).
    + apply list_elem_of_singleton in Hin. injection Hin as -> ->.
      by rewrite lookup_insert_eq.
Qed.

Lemma inverse_last (before after : list (string * Z)) k v :
  v ∉ after.*2 -> inverse (before ++ (k, v) :: after) !! v = Some k.
Proof.
  induction after as [|[k' v'] after IH] using rev_ind; intros Hv.
  - by rewrite inverse_snoc, lookup_insert_eq.
  - rewrite fmap_app in Hv. apply not_elem_of_app in Hv as [Hv Hne].
    replace (before ++ (k, v) :: after ++ [(k', v')])
      with ((before ++ (k, v) :: after) ++ [(k', v')])
      by (by rewrite <- app_assoc).
    rewrite inverse_snoc, lookup_insert_ne; [by apply IH|].
    intros ->. apply Hne. by left.
Qed.

(** ** [GET /status] in full *)

Lemma get_status_value `{Driver D} (PUMP_MODES : list (string * Z))
    (s : session D) (st : gmap string value) :
  readStatus (dev s) = Done st ->
  status_typed st = true ->
  get_status PUMP_MODES s
  = (Ret (StatusResponse.Build
            (eq_int (default (VInt 0) (st !! "run")) 0x0A)
            (int_of (default (VInt 0) (st !! "rpm")))
            (int_of (default (VInt 0) (st !! "watts")))
            (default "UNKNOWN"
               (inverse PUMP_MODES
                  !! int_of (default (VInt 0) (st !! "mode"))))
            (take 2 (list_of (default (VList [0; 0]) (st !! "time"))))),
     s).
Proof.
  intros Hst Hty. unfold status_typed in Hty.
  apply andb_true_iff in Hty as [Hty Htime].
  apply andb_true_iff in Hty as [Hty Hmode].
  apply andb_true_iff in Hty as [Hrpm Hwatts].
  unfold get_status, except_Exception, get_status_body.
  unfold bind at 1. unfold pump_status. rewrite Hst.
  unfold inverse_get, bind, as_int, subscript, getitem, ret, raise.
  destruct (default (VInt 0) (st !! "mode")) as [k|b|?]; try discriminate;
    (destruct (default (VList [0; 0]) (st !! "time")) as [?|?|l];
       try discriminate;
     destruct l as [|h [|m l]]; try discriminate; cbn;
     destruct (default (VInt 0) (st !! "rpm")) as [?|?|?]; try discriminate;
     destruct (default (VInt 0) (st !! "watts")) as [?|?|?];
       try discriminate; reflexivity).
Qed.

(** X12. The [mode] of [/status] is the status code looked up backwards
    in the driver's table: with distinct codes in the table it is the
    label whose code the pump reports, a code the table does not have is
    reported as "UNKNOWN", and when several labels share a code the last
    of them in the table wins. *)
Theorem get_status_mode_label `{Driver D} (PUMP_MODES : list (string * Z))
    (s : session D) (st : gmap string value) (v : Z) :
  readStatus (dev s) = Done st ->
  status_typed st = true ->
  st !! "mode" = Some (VInt v) ->
  exists r,
    get_status PUMP_MODES s = (Ret r, s)
    /\ (forall k, NoDup PUMP_MODES.*2 -> (k, v) ∈ PUMP_MODES ->
          StatusResponse.mode r = k)
    /\ (v ∉ PUMP_MODES.*2 -> StatusResponse.mode r = "UNKNOWN")
    /\ (forall k before after,
          PUMP_MODES = before ++ (k, v) :: after -> v ∉ after.*2 ->
          StatusResponse.mode r = k).
Proof.
  intros Hst Hty Hv. eexists. split; [by apply get_status_value|].
  cbn [StatusResponse.mode]. rewrite Hv. cbn [default int_of].
  split; [|split].
  - intros k Hnd Hin. by rewrite (inverse_Some _ k v).
  - intros Hnot. by rewrite inverse_None.
  - intros k before after -> Hafter. by rewrite inverse_last.
Qed.

Lemma get_status_mode_label_witness :
  (exists r,
     get_status sample_table (start running_pump)
     = (Ret r, start running_pump)
     /\ StatusResponse.mode r = "SECOND")
  /\ (exists r,
        get_status shared_code_table (start running_pump)
        = (Ret r, start running_pump)
        /\ StatusResponse.mode r = "SECOND").
Proof.
  assert (readStatus (dev (start running_pump))
          = Done (Sim.status running_pump)) as Hst by reflexivity.
  assert (status_typed (Sim.status running_pump) = true) as Hty
    by (by vm_compute).
  assert (Sim.status running_pump !! "mode" = Some (VInt 1)) as Hv
    by (by vm_compute).
  split.
  - destruct (get_status_mode_label sample_table (start running_pump) _ 1
                Hst Hty Hv) as (r & Hr & Hlabel & _).
    exists r. split; [exact Hr|].
    apply Hlabel.
    + apply (bool_decide_unpack _). by vm_compute.
    + apply list_elem_of_In. cbn. tauto.
  - destruct (get_status_mode_label shared_code_table (start running_pump)
                _ 1 Hst Hty Hv) as (r & Hr & _ & _ & Hlast).
    exists r. split; [exact Hr|].
    apply (Hlast "SECOND" [("FIRST", 1)] [("THIRD", 0)]); [reflexivity|].
    apply (bool_decide_unpack _). by vm_compute.
Defined.

(** X13. [/status] fills in what the status read leaves out: with no
    entry at all it reports a stopped pump at 0 RPM and 0 watts at 00:00,
    in the mode labelled 0.  When the status read fails the reply is a
    500 with the driver's text, and a [time] entry with a single element
    is a 500 as well. *)
Theorem get_status_defaults `{Driver D} (PUMP_MODES : list (string * Z))
    (s : session D) :
  (readStatus (dev s) = Done ∅ ->
   get_status PUMP_MODES s
   = (Ret (StatusResponse.Build false 0 0
             (default "UNKNOWN" (inverse PUMP_MODES !! 0)) [0; 0]),
      s))
  /\ (forall text,
        readStatus (dev s) = Failed text ->
        get_status PUMP_MODES s
        = (Raise (HTTPException 500 (Str (DriverError text))), s))
  /\ (forall st h,
        readStatus (dev s) = Done st ->
        st !! "time" = Some (VList [h]) ->
        is_number (default (VInt 0) (st !! "mode")) = true ->
        get_status PUMP_MODES s
        = (Raise (HTTPException 500 (Str IndexError)), s)).
Proof.
  split; [|split].
  - intros Hst. by rewrite (get_status_value PUMP_MODES s ∅).
  - intros text Hst.
    unfold get_status, except_Exception, get_status_body, bind, pump_status.
    by rewrite Hst.
  - intros st h Hst Htime Hmode.
    unfold get_status, except_Exception, get_status_body.
    unfold bind at 1. unfold pump_status. rewrite Hst, Htime.
    unfold inverse_get, bind, as_int, subscript, getitem, ret, raise.
    by destruct (default (VInt 0) (st !! "mode")).
Qed.

Lemma get_status_defaults_witness :
  get_status sample_table (start silent_pump)
  = (Raise (HTTPException 500 (Str (DriverError "no response from pump"))),
     start silent_pump).
Proof.
  destruct (get_status_defaults sample_table (start silent_pump))
    as (_ & Hfail & _).
  assert (readStatus (dev (start silent_pump))
          = Failed "no response from pump") as Hst by reflexivity.
  exact (Hfail _ Hst).
Defined.

(** ** [GET /config]: what is reported *)

(** X15. [/config] divides the stored [RUNNING_PROGRAM] setting by 8 and
    drops the remainder: it reports [n] exactly for the stored values 8n
    to 8n+7, so a setting that is not a multiple of 8 is reported as the
    program below it. *)
Theorem get_config_running_program_floor `{Driver D}
    (WEEKDAYS : list (string * Z)) (s s' : session D) reply (k : Z) :
  get_config WEEKDAYS s = (Ret reply, s') ->
  readField (Setting "RUNNING_PROGRAM") (dev s) = Done (VInt k) ->
  field "running_program" reply = Some (JNum (k / 8))
  /\ forall n, field "running_program" reply = Some (JNum n)
               <-> 8 * n <= k < 8 * n + 8.
Proof.
  intros Hr Hk.
  destruct (get_config_running_program WEEKDAYS s reply s' Hr)
    as (v & Hv & _ & Hf).
  rewrite Hk in Hv. injection Hv as <-. cbn [int_of] in Hf.
  split; [done|]. intros n. rewrite Hf.
  pose proof (Z.div_mod k 8 ltac:(lia)) as Hdm.
  pose proof (Z.mod_pos_bound k 8 ltac:(lia)) as Hmod.
  split.
  - intros [= <-]. lia.
  - intros Hn. do 2 f_equal. lia.
Qed.

Lemma get_config_running_program_floor_witness :
  exists reply,
    get_config [] (start (Sim.store (Setting "RUNNING_PROGRAM") (VInt 15)
                            idle_pump))
    = (Ret reply,
       start (Sim.store (Setting "RUNNING_PROGRAM") (VInt 15) idle_pump))
    /\ field "running_program" reply = Some (JNum 1).
Proof.
  assert (config_readable
            (Sim.store (Setting "RUNNING_PROGRAM") (VInt 15) idle_pump)
          = true) as Hc by (by vm_compute).
  destruct (get_config_returns [] _ Hc) as [reply Hreply].
  exists reply. split; [exact Hreply|].
  assert (readField (Setting "RUNNING_PROGRAM")
            (dev (start (Sim.store (Setting "RUNNING_PROGRAM") (VInt 15)
                           idle_pump)))
          = Done (VInt 15)) as Hk by reflexivity.
  destruct (get_config_running_program_floor [] _ _ reply 15 Hreply Hk)
    as [_ Hiff].
  apply Hiff. lia.
Defined.

(** ** The read handlers leave the pump alone *)

Lemma read_only_except {D A} (m : M D A) :
  read_only m -> read_only (except_Exception m).
Proof.
  intros Hm s. unfold except_Exception. specialize (Hm s).
  by destruct (m s) as [[a|e] s1].
Qed.

Lemma read_only_pump_status `{Driver D} : read_only pump_status.
Proof. intros s. unfold pump_status. by destruct (readStatus (dev s)). Qed.

Lemma read_only_read_attrs `{Driver D} names : read_only (read_attrs names).
Proof.
  induction names as [|name names IH]; cbn [read_attrs];
    [apply read_only_ret|].
  apply read_only_bind; [apply read_only_pump_get|]. intros v.
  apply read_only_bind; [apply IH|]. intros vs. apply read_only_ret.
Qed.

(** X17. [/status] and [/config] only read: whatever the pump answers,
    they issue no write and leave the device as it was. *)
Theorem read_handlers_do_not_write `{Driver D}
    (PUMP_MODES WEEKDAYS : list (string * Z)) (s : session D) :
  (get_status PUMP_MODES s).2 = s /\ (get_config WEEKDAYS s).2 = s.
Proof.
  split.
  - apply read_only_except. unfold get_status_body, inverse_get.
    repeat (first [ apply read_only_ret | apply read_only_pump_status
                  | apply read_only_as_int | apply read_only_subscript
                  | apply read_only_bind; [|intros ?] ]).
  - apply read_only_except. unfold get_config_body.
    repeat (first [ apply read_only_ret | apply read_only_pump_get
                  | apply read_only_as_int | apply read_only_subscript
                  | apply read_only_read_attrs
                  | apply (read_only_for_each program_summary);
                    apply read_only_program_summary
                  | apply read_only_bind; [|intros ?] ]).
Qed.

(** ** [GET /config]: when it answers *)

Lemma sim_pump_get_inv x v (s s' : session Sim.t) :
  pump_get x s = (Ret v, s') ->
  Sim.online (dev s) = true /\ Sim.regs (dev s) x = Some v /\ s' = s.
Proof.
  unfold pump_get. cbn [readField Sim.driver].
  destruct (Sim.online (dev s)); [|discriminate].
  destruct (Sim.regs (dev s) x); [|discriminate].
  intros [= -> ->]. done.
Qed.

Lemma as_int_inv {D} bad v k (s s' : session D) :
  as_int bad v s = (Ret k, s') ->
  is_number v = true /\ k = int_of v /\ s' = s.
Proof. destruct v; cbn; unfold ret, raise; intros [= <- <-]; done. Qed.

Lemma list_index_labels_inv {D} (k : Z) label (s s' : session D) :
  list_index ["MANUAL"; "EGG_TIMER"; "SCHEDULE"] k s = (Ret label, s') ->
  between (-3) k 2 = true /\ s' = s.
Proof.
  unfold list_index, between. cbn [length].
  destruct (Z.ltb_spec k 0) as [Hneg|Hneg];
    destruct ((0 <=? _) && (_ <? _)) eqn:Hin; try discriminate;
    apply andb_true_iff in Hin as [H1 H2];
    apply Z.leb_le in H1; apply Z.ltb_lt in H2;
    (destruct (_ !! _); [|discriminate]); intros [= _ <-];
    (split; [|done]); apply andb_true_iff; split; apply Z.leb_le; lia.
Qed.

Lemma list_index_labels_out {D} (k : Z) (s : session D) :
  k < -3 \/ 2 < k ->
  list_index ["MANUAL"; "EGG_TIMER"; "SCHEDULE"] k s = (Raise IndexError, s).
Proof.
  intros Hk. unfold list_index. cbn [length].
  destruct (Z.ltb_spec k 0) as [Hneg|Hneg];
    destruct ((0 <=? _) && (_ <? _)) eqn:Hin; try reflexivity;
    apply andb_true_iff in Hin as [H1 H2];
    apply Z.leb_le in H1; apply Z.ltb_lt in H2; lia.
Qed.

Lemma program_summary_inv i j (s s' : session Sim.t) :
  program_summary i s = (Ret j, s') ->
  readable_program (dev s) i = true.
Proof.
  unfold program_summary. intros Hr.
  apply bind_Ret_inv in Hr as (rpm & s1 & Hrpm & Hr).
  apply sim_pump_get_inv in Hrpm as (Hon & Hrpm & ->).
  apply bind_Ret_inv in Hr as (mode & s1 & Hmode & Hr).
  apply sim_pump_get_inv in Hmode as (_ & Hmode & ->).
  apply bind_Ret_inv in Hr as (k & s1 & Hk & Hr).
  apply as_int_inv in Hk as (Hnum & -> & ->).
  apply bind_Ret_inv in Hr as (label & s1 & Hlabel & Hr).
  apply list_index_labels_inv in Hlabel as (Hrange & ->).
  apply bind_Ret_inv in Hr as (ss & s1 & Hss & Hr).
  apply sim_pump_get_inv in Hss as (_ & Hss & ->).
  apply bind_Ret_inv in Hr as (se & s1 & Hse & Hr).
  apply sim_pump_get_inv in Hse as (_ & Hse & ->).
  apply bind_Ret_inv in Hr as (et & s1 & Het & Hr).
  apply sim_pump_get_inv in Het as (_ & Het & ->).
  unfold readable_program. by rewrite Hrpm, Hmode, Hss, Hse, Het, Hnum, Hrange.
Qed.

Lemma for_each_inv {D A B} (f : A -> M D B) xs ys (s s' : session D) :
  (forall x, read_only (f x)) ->
  for_each f xs s = (Ret ys, s') ->
  s' = s
  /\ length ys = length xs
  /\ Forall (fun x => exists y, f x s = (Ret y, s)) xs.
Proof.
  intros Hf. revert ys s'.
  induction xs as [|x xs IH]; intros ys s' Hr; cbn [for_each] in Hr.
  - unfold ret in Hr. injection Hr as <- <-. by repeat split.
  - apply bind_Ret_inv in Hr as (y & s1 & Hy & Hr).
    pose proof (Hf x s) as Hx. rewrite Hy in Hx. cbn in Hx. subst s1.
    apply bind_Ret_inv in Hr as (ys' & s2 & Hys & Hr).
    apply IH in Hys as (-> & Hlen & Hall).
    unfold ret in Hr. injection Hr as <- <-.
    split; [done|]. split; [cbn; by rewrite Hlen|].
    constructor; [by exists y | done].
Qed.

Lemma read_attrs_inv names l (s s' : session Sim.t) :
  read_attrs names s = (Ret l, s') ->
  forallb (fun name => is_present (Sim.regs (dev s) (Attr name))) names
  = true.
Proof.
  revert l s'. induction names as [|name names IH]; intros l s' Hr;
    cbn [read_attrs forallb] in *; [done|].
  apply bind_Ret_inv in Hr as (v & s1 & Hv & Hr).
  apply sim_pump_get_inv in Hv as (_ & Hv & ->).
  apply bind_Ret_inv in Hr as (vs & s2 & Hvs & _).
  rewrite Hv. cbn. by apply (IH vs s2).
Qed.

Lemma get_config_readable (WEEKDAYS : list (string * Z)) (d : Sim.t)
    reply s' :
  get_config WEEKDAYS (start d) = (Ret reply, s') ->
  config_readable d = true.
Proof.
  unfold get_config, except_Exception. intros Hr.
  destruct (get_config_body WEEKDAYS (start d)) as [[r|e] s0] eqn:Hbody;
    [|discriminate].
  clear Hr. unfold get_config_body in Hbody.
  apply bind_Ret_inv in Hbody as (programs & s1 & Hprog & Hbody).
  apply (for_each_inv _ _ _ _ _ read_only_program_summary) in Hprog
    as (-> & _ & Hprogs).
  apply bind_Ret_inv in Hbody as (dt & s1 & Hdt & Hbody).
  apply sim_pump_get_inv in Hdt as (Hon & Hdt & ->).
  apply bind_Ret_inv in Hbody as (run & s1 & Hrun & Hbody).
  apply sim_pump_get_inv in Hrun as (_ & Hrun & ->).
  apply bind_Ret_inv in Hbody as (settings & s1 & Hset & Hbody).
  pose proof (read_attrs_inv _ _ _ _ Hset) as Hattrs.
  apply read_attrs_keys in Hset as [_ ->].
  apply bind_Ret_inv in Hbody as (stored & s1 & Hstored & Hbody).
  apply sim_pump_get_inv in Hstored as (_ & Hstored & ->).
  apply bind_Ret_inv in Hbody as (k & s1 & Hk & Hbody).
  apply as_int_inv in Hk as (Hnum & _ & ->).
  do 6 (apply bind_Ret_inv in Hbody as (? & ? & _ & Hbody)).
  apply bind_Ret_inv in Hbody as (dst & s1 & Hdst & _).
  assert (match dt with
          | VList l => (7 <=? length l)%nat
          | _ => false
          end = true) as Hlen.
  { destruct dt as [| |l]; try discriminate.
    unfold subscript, getitem in Hdst.
    destruct (l !! 6%nat) eqn:Hl6; [|discriminate].
    apply lookup_lt_Some in Hl6. apply Nat.leb_le. lia. }
  cbn [dev start] in *.
  unfold config_readable.
  rewrite Hon, Hdt, Hlen, Hstored, Hnum.
  change (forallb _ ("run" :: config_attrs)) with
    (is_present (Sim.regs d (Attr "run"))
     && forallb (fun name => is_present (Sim.regs d (Attr name)))
          config_attrs).
  rewrite Hrun, Hattrs. cbn [is_present andb].
  rewrite !andb_true_r. apply forallb_forall. intros i Hi.
  rewrite Forall_forall in Hprogs.
  destruct (Hprogs i) as [j Hj]; [by apply list_elem_of_In|].
  by apply program_summary_inv in Hj.
Qed.

(** X14. On the register pump, [/config] answers 200 exactly when the
    pump answers, programs 1 to 4 have all five registers with a mode
    within -3 to 2, the clock has at least seven entries, every copied
    setting and [run] can be read, and the running program is a number. *)
Theorem get_config_answers_iff_readable (WEEKDAYS : list (string * Z))
    (d : Sim.t) :
  status_code_of (get_config WEEKDAYS (start d)).1 = 200
  <-> config_readable d = true.
Proof.
  split.
  - intros Hs.
    destruct (except_Exception_cases (get_config_body WEEKDAYS) (start d))
      as [(reply & Hret & _) | (e & Hraise & _)].
    + apply (get_config_readable WEEKDAYS d reply
               (get_config WEEKDAYS (start d)).2).
      unfold get_config. rewrite <- Hret. by destruct (except_Exception _ _).
    + unfold get_config in Hs. rewrite Hraise in Hs. discriminate.
  - intros Hc. destruct (get_config_returns WEEKDAYS d Hc) as [reply ->].
    reflexivity.
Qed.

Lemma get_config_answers_iff_readable_witness :
  status_code_of (get_config [] (start idle_pump)).1 = 200
  /\ status_code_of (get_config [] (start silent_pump)).1 <> 200.
Proof.
  split.
  - apply (get_config_answers_iff_readable [] idle_pump). by vm_compute.
  - intros Hs. apply (get_config_answers_iff_readable [] silent_pump) in Hs.
    vm_compute in Hs. discriminate.
Defined.

Lemma pump_get_Done `{Driver D} x v (s : session D) :
  readField x (dev s) = Done v -> pump_get x s = (Ret v, s).
Proof. intros Hx. unfold pump_get. by rewrite Hx. Qed.

Lemma program_summary_bad_mode `{Driver D} i m (s : session D) :
  readField (ProgAttr i "mode") (dev s) = Done (VInt m) ->
  m < -3 \/ 2 < m ->
  exists e, (program_summary i s).1 = Raise e.
Proof.
  intros Hmode Hm. unfold program_summary.
  unfold bind at 1. unfold pump_get at 1.
  destruct (readField (ProgAttr i "rpm") (dev s)) as [rpm|text];
    [|by eauto].
  unfold bind at 1. unfold pump_get at 1. rewrite Hmode.
  unfold bind at 1. cbn [as_int]. unfold ret at 1.
  unfold bind at 1. rewrite list_index_labels_out by done.
  by eauto.
Qed.

(** X16. The mode of a program indexes the three labels the way a Python
    list is indexed: [/config] is a 500 whenever one of programs 1 to 4
    has a mode below -3 or above 2, and a mode of -3, -2 or -1 is reported
    under the label of mode 0, 1 or 2. *)
Theorem get_config_mode_bounds `{Driver D} (WEEKDAYS : list (string * Z))
    (s : session D) (i m : Z) :
  readField (ProgAttr i "mode") (dev s) = Done (VInt m) ->
  (i ∈ [1; 2; 3; 4] -> m < -3 \/ 2 < m ->
   status_code_of (get_config WEEKDAYS s).1 = 500)
  /\ (forall rpm schedule_start schedule_end egg_timer,
        -3 <= m <= -1 ->
        readField (ProgAttr i "rpm") (dev s) = Done rpm ->
        readField (ProgAttr i "schedule_start") (dev s)
        = Done schedule_start ->
        readField (ProgAttr i "schedule_end") (dev s) = Done schedule_end ->
        readField (ProgAttr i "egg_timer") (dev s) = Done egg_timer ->
        program_summary i s
        = (Ret (JObj [("program_id", JNum i);
                      ("rpm", JVal rpm);
                      ("mode",
                        JStr (default ""
                                (["MANUAL"; "EGG_TIMER"; "SCHEDULE"]
                                   !! Z.to_nat (m + 3))));
                      ("schedule_start", JVal schedule_start);
                      ("schedule_end", JVal schedule_end);
                      ("egg_timer", JVal egg_timer)]),
           s)).
Proof.
  intros Hmode. split.
  - intros Hi Hm.
    destruct (for_each_raises program_summary [1; 2; 3; 4] i s
                read_only_program_summary Hi
                (program_summary_bad_mode i m s Hmode Hm)) as [e He].
    unfold get_config, except_Exception, get_config_body. unfold bind at 1.
    destruct (for_each program_summary [1; 2; 3; 4] s) as [[ys|e'] s1];
      cbn in *; [discriminate | reflexivity].
  - intros rpm ss se et Hm Hrpm Hss Hse Het.
    unfold program_summary.
    rewrite (bind_Ret _ _ _ _ _ (pump_get_Done _ _ s Hrpm)).
    rewrite (bind_Ret _ _ _ _ _ (pump_get_Done _ _ s Hmode)).
    rewrite (bind_Ret _ _ s m s) by reflexivity.
    rewrite (bind_Ret _ _ s
               (default "" (["MANUAL"; "EGG_TIMER"; "SCHEDULE"]
                              !! Z.to_nat (m + 3))) s).
    + rewrite (bind_Ret _ _ _ _ _ (pump_get_Done _ _ s Hss)).
      rewrite (bind_Ret _ _ _ _ _ (pump_get_Done _ _ s Hse)).
      rewrite (bind_Ret _ _ _ _ _ (pump_get_Done _ _ s Het)).
      reflexivity.
    + assert (m = -3 \/ m = -2 \/ m = -1) as [-> | [-> | ->]] by lia;
        reflexivity.
Qed.

Lemma get_config_mode_bounds_witness :
  status_code_of
    (get_config [] (start (Sim.store (ProgAttr 2 "mode") (VInt 7)
                             idle_pump))).1
  = 500
  /\ exists reply,
       (get_config [] (start (Sim.store (ProgAttr 2 "mode") (VInt (-1))
                                idle_pump))).1
       = Ret reply.
Proof.
  split.
  - assert (readField (ProgAttr 2 "mode")
              (dev (start (Sim.store (ProgAttr 2 "mode") (VInt 7)
                             idle_pump)))
            = Done (VInt 7)) as Hmode by reflexivity.
    apply (proj1 (get_config_mode_bounds [] _ 2 7 Hmode)).
    + apply list_elem_of_In. cbn. tauto.
    + lia.
  - eexists. by vm_compute.
Defined.

(** ** [GET /config]: the shape of the reply *)

Lemma pump_get_inv `{Driver D} x v (s s' : session D) :
  pump_get x s = (Ret v, s') -> readField x (dev s) = Done v /\ s' = s.
Proof.
  unfold pump_get. destruct (readField x (dev s)); [|discriminate].
  by intros [= -> ->].
Qed.

Lemma subscript_inv {D} v i x (s s' : session D) :
  subscript v i s = (Ret x, s') ->
  list_of v !! i = Some x /\ s' = s /\ v = VList (list_of v).
Proof.
  destruct v as [| |l]; try discriminate. cbn. unfold getitem.
  destruct (l !! i); [|discriminate]. by intros [= -> ->].
Qed.

Lemma read_attrs_field `{Driver D} names (s : session D) l s' :
  read_attrs names s = (Ret l, s') ->
  forall name, name ∈ names ->
    exists v, readField (Attr name) (dev s) = Done v
              /\ forall rest, field name (l ++ rest) = Some (JVal v).
Proof.
  revert l s'. induction names as [|n names IH]; intros l s' Hr name Hin.
  - by apply elem_of_nil in Hin.
  - cbn [read_attrs] in Hr.
    apply bind_Ret_inv in Hr as (v0 & s1 & Hv0 & Hr).
    apply pump_get_inv in Hv0 as (Hv0 & ->).
    apply bind_Ret_inv in Hr as (vs & s2 & Hvs & Hr).
    unfold ret in Hr. injection Hr as <- <-.
    destruct (decide (n = name)) as [->|Hne].
    + exists v0. split; [done|]. intros rest. cbn. by rewrite decide_True.
    + apply elem_of_cons in Hin as [->|Hin]; [done|].
      destruct (IH _ _ Hvs name Hin) as (v & Hv & Hf).
      exists v. split; [done|]. intros rest. cbn.
      rewrite decide_False by done. apply Hf.
Qed.

Lemma for_each_results {D A B} (f : A -> M D B) xs ys (s s' : session D) :
  (forall x, read_only (f x)) ->
  for_each f xs s = (Ret ys, s') ->
  Forall2 (fun x y => f x s = (Ret y, s)) xs ys.
Proof.
  intros Hf. revert ys s'.
  induction xs as [|x xs IH]; intros ys s' Hr; cbn [for_each] in Hr.
  - unfold ret in Hr. injection Hr as <- <-. constructor.
  - apply bind_Ret_inv in Hr as (y & s1 & Hy & Hr).
    pose proof (Hf x s) as Hx. rewrite Hy in Hx. cbn in Hx. subst s1.
    apply bind_Ret_inv in Hr as (ys' & s2 & Hys & Hr).
    unfold ret in Hr. injection Hr as <- <-.
    constructor; [done|]. by apply (IH ys' s2).
Qed.

(** X18. A [/config] reply has the 21 copied settings in the order of the
    source, each with the value read from the pump attribute of the same
    name, then [running_program] (the stored setting divided by 8),
    [datetime] and [programs]; the programs are the summaries of programs
    1 to 4 in order; [datetime] is the first seven entries of the pump
    clock, its weekday looked up backwards in the driver's table with
    "SUNDAY" for a code the table does not have. *)
Theorem get_config_reply_shape `{Driver D} (WEEKDAYS : list (string * Z))
    (s s' : session D) reply :
  get_config WEEKDAYS s = (Ret reply, s') ->
  reply.*1 = config_attrs ++ ["running_program"; "datetime"; "programs"]
  /\ (forall name, name ∈ config_attrs ->
        exists v, readField (Attr name) (dev s) = Done v
                  /\ field name reply = Some (JVal v))
  /\ (exists stored,
        readField (Setting "RUNNING_PROGRAM") (dev s) = Done stored
        /\ field "running_program" reply = Some (JNum (int_of stored / 8)))
  /\ (exists programs,
        field "programs" reply = Some (JArr programs)
        /\ length programs = 4%nat
        /\ Forall2 (fun i summary => program_summary i s = (Ret summary, s))
             [1; 2; 3; 4] programs)
  /\ exists hour minute weekday dom month year dst rest,
       readField (Attr "dt") (dev s)
       = Done (VList (hour :: minute :: weekday :: dom :: month :: year
                      :: dst :: rest))
       /\ field "datetime" reply
          = Some (JObj [("hour", JNum hour);
                        ("minute", JNum minute);
                        ("dow",
                          JStr (default "SUNDAY"
                                  (inverse WEEKDAYS !! weekday)));
                        ("dom", JNum dom);
                        ("month", JNum month);
                        ("year", JNum year);
                        ("dst", JNum dst)]).
Proof.
  unfold get_config, except_Exception. intros Hr.
  destruct (get_config_body WEEKDAYS s) as [[r|e] s0] eqn:Hbody;
    [|discriminate].
  injection Hr as -> ->. unfold get_config_body in Hbody.
  apply bind_Ret_inv in Hbody as (programs & s1 & Hprog & Hbody).
  pose proof (for_each_results _ _ _ _ _ read_only_program_summary Hprog)
    as Hsummaries.
  apply (for_each_inv _ _ _ _ _ read_only_program_summary) in Hprog
    as (-> & Hlen & _).
  apply bind_Ret_inv in Hbody as (dt & s1 & Hdt & Hbody).
  apply pump_get_inv in Hdt as (Hdt & ->).
  apply bind_Ret_inv in Hbody as (run & s1 & Hrun & Hbody).
  apply pump_get_inv in Hrun as (_ & ->).
  apply bind_Ret_inv in Hbody as (settings & s1 & Hset & Hbody).
  pose proof (read_attrs_field _ _ _ _ Hset) as Hvalues.
  apply read_attrs_keys in Hset as [Hkeys ->].
  apply bind_Ret_inv in Hbody as (stored & s1 & Hstored & Hbody).
  apply pump_get_inv in Hstored as (Hstored & ->).
  apply bind_Ret_inv in Hbody as (k & s1 & Hk & Hbody).
  apply as_int_inv in Hk as (_ & -> & ->).
  apply bind_Ret_inv in Hbody as (a0 & s1 & H0 & Hbody).
  apply subscript_inv in H0 as (H0 & -> & Hlist).
  apply bind_Ret_inv in Hbody as (a1 & s1 & H1 & Hbody).
  apply subscript_inv in H1 as (H1 & -> & _).
  apply bind_Ret_inv in Hbody as (a2 & s1 & H2 & Hbody).
  apply subscript_inv in H2 as (H2 & -> & _).
  apply bind_Ret_inv in Hbody as (a3 & s1 & H3 & Hbody).
  apply subscript_inv in H3 as (H3 & -> & _).
  apply bind_Ret_inv in Hbody as (a4 & s1 & H4 & Hbody).
  apply subscript_inv in H4 as (H4 & -> & _).
  apply bind_Ret_inv in Hbody as (a5 & s1 & H5 & Hbody).
  apply subscript_inv in H5 as (H5 & -> & _).
  apply bind_Ret_inv in Hbody as (a6 & s1 & H6 & Hbody).
  apply subscript_inv in H6 as (H6 & -> & _).
  unfold ret in Hbody. injection Hbody as <- <-.
  assert (forall key tail, key ∉ config_attrs ->
            field key (settings ++ tail) = field key tail) as Hfield.
  { intros key tail Hkey. apply field_app_r. by rewrite Hkeys. }
  split; [by rewrite fmap_app, Hkeys|].
  split.
  { intros name Hname. destruct (Hvalues name Hname) as (v & Hv & Hf).
    exists v. split; [done|]. apply Hf. }
  split.
  { exists stored. split; [done|].
    rewrite Hfield; [reflexivity|].
    apply (bool_decide_unpack _). by vm_compute. }
  split.
  - exists programs. split; [|by split].
    rewrite Hfield; [reflexivity|].
    apply (bool_decide_unpack _). by vm_compute.
  - rewrite Hlist in Hdt.
    destruct (list_of dt) as [|b0 [|b1 [|b2 [|b3 [|b4 [|b5 [|b6 rest]]]]]]];
      try discriminate.
    cbn in H0, H1, H2, H3, H4, H5, H6.
    injection H0 as ->. injection H1 as ->. injection H2 as ->.
    injection H3 as ->. injection H4 as ->. injection H5 as ->.
    injection H6 as ->.
    exists a0, a1, a2, a3, a4, a5, a6, rest. split; [done|].
    rewrite Hfield; [reflexivity|].
    apply (bool_decide_unpack _). by vm_compute.
Qed.

Lemma get_config_reply_shape_witness :
  exists reply,
    get_config sample_table
      (start (Sim.store (Attr "ramp") (VInt 150) idle_pump))
    = (Ret reply, start (Sim.store (Attr "ramp") (VInt 150) idle_pump))
    /\ length reply = 24%nat
    /\ field "ramp" reply = Some (JVal (VInt 150))
    /\ field "datetime" reply
       = Some (JObj [("hour", JNum 12); ("minute", JNum 30);
                     ("dow", JStr "SUNDAY"); ("dom", JNum 4);
                     ("month", JNum 11); ("year", JNum 26);
                     ("dst", JNum 0)]).
Proof.
  assert (config_readable (Sim.store (Attr "ramp") (VInt 150) idle_pump)
          = true) as Hc by (by vm_compute).
  destruct (get_config_returns sample_table _ Hc) as [reply Hreply].
  exists reply. split; [exact Hreply|].
  destruct (get_config_reply_shape sample_table _ _ reply Hreply)
    as (Hkeys & Hvalues & _ & _
        & (hour & minute & weekday & dom & month & year & dst
           & rest & Hdt & Hdate)).
  split; [|split].
  - rewrite <- (length_fmap fst), Hkeys. reflexivity.
  - destruct (Hvalues "ramp") as (v & Hv & Hf).
    + apply list_elem_of_In. cbn. tauto.
    + cbn in Hv. injection Hv as <-. exact Hf.
  - rewrite Hdate. cbn in Hdt. injection Hdt as <- <- <- <- <- <- <- <-.
    reflexivity.
Defined.

(** ** [POST /program]: the speed of a slot *)


